(** * AgroScan: the rule engine and the Perplexity chat/recommendation handlers

    A shallow embedding of the advisory core of the AgroScan backend:

    - [ruleEngine.js] in its two revisions (the three-check engine and the
      progressive Basic / Advanced / Scientific engine),
    - [preassignedCommands.js], [aiPersonality.js],
    - [perplexity-chat-handler.js] (the axios revision) and
      [perplexity-recommend-handler.js] (the fetch revision),
    - the part of the [/chat] route of the server that prepares the
      [messages] array,
    - the node-fetch revision of the chat handler and the revision of the
      recommendation handler without the personality,
    - the [/recommend] and [/chat] routes of the server, the database of
      the latter being given by its answers to the statements sent.

    Numbers are exact rationals extended with NaN and the infinities; a
    reading is [undefined], [null], a boolean, a number, or any other
    value given by its conversions.  The engine is given twice: as the
    function from the readings to the list it returns, and as a program on
    a heap of arrays, to state that a call leaves no trace.  The handlers
    run in a small state-and-exception monad over a world that records the
    console, the requests sent to the completion service and the lookups
    in the command table. *)

From Stdlib Require Import QArith Lqa Ascii String Sorted.
From stdpp Require Import base strings list gmap.

Set Warnings "-register-all".

Local Open Scope string_scope.

(* ===================================================================== *)
(** ** JavaScript primitives *)
(* ===================================================================== *)

Module JS.

(** An IEEE-754 double is NaN, an infinity, or a finite dyadic rational.
    Every finite double is a rational, and every numeric literal of the
    embedded code (6, 8, 5.5, 7.5, ...) is exactly representable, so the
    relational operators of the source coincide with the order of [Q] on
    finite operands.  [Fin 0] stands for both zeros, which JavaScript
    neither orders nor tells apart in a condition. *)
Inductive number : Type :=
  | NaN
  | PosInf
  | NegInf
  | Fin (q : Q).

(** What a JSON request body can put in a soil reading, and [undefined]
    for a field that is missing.  The engine and the handlers look at a
    reading only through ToNumber, ToBoolean, ToString and the test
    against [undefined], so a string, an array or an object is given by
    what these three conversions make of it. *)
Inductive value : Type :=
  | VUndefined
  | VNull
  | VBool (b : bool)
  | VNum (n : number)
  | VOther (asNumber : number) (asBoolean : bool) (asString : string).

Definition num (q : Q) : value := VNum (Fin q).

(** ToNumber *)
Definition ToNumber (v : value) : number :=
  match v with
  | VUndefined => NaN
  | VNull => Fin 0
  | VBool true => Fin 1
  | VBool false => Fin 0
  | VNum n => n
  | VOther n _ _ => n
  end.

(** ToBoolean *)
Definition ToBoolean (v : value) : bool :=
  match v with
  | VUndefined | VNull => false
  | VBool b => b
  | VNum NaN => false
  | VNum (Fin q) => negb (Qeq_bool q 0)
  | VNum _ => true
  | VOther _ b _ => b
  end.

Definition Qltb (x y : Q) : bool :=
  match (x ?= y)%Q with Lt => true | _ => false end.

(** [x < y] on numbers: false as soon as an operand is NaN. *)
Definition number_lt (x y : number) : bool :=
  match x, y with
  | NaN, _ | _, NaN => false
  | _, NegInf => false
  | NegInf, _ => true
  | PosInf, _ => false
  | Fin _, PosInf => true
  | Fin a, Fin b => Qltb a b
  end.

(** [x <= y] on numbers is [not (y < x)] unless an operand is NaN. *)
Definition number_le (x y : number) : bool :=
  match x, y with
  | NaN, _ | _, NaN => false
  | _, _ => negb (number_lt y x)
  end.

(** The relational operators when an operand is a number, as in every
    comparison of the engine: both sides go through ToNumber. *)
Definition lt (a b : value) : bool := number_lt (ToNumber a) (ToNumber b).
Definition gt (a b : value) : bool := number_lt (ToNumber b) (ToNumber a).
Definition le (a b : value) : bool := number_le (ToNumber a) (ToNumber b).
Definition ge (a b : value) : bool := number_le (ToNumber b) (ToNumber a).

(** [v !== undefined] *)
Definition is_defined (v : value) : bool :=
  match v with VUndefined => false | _ => true end.

End JS.

Declare Scope js_scope.
Delimit Scope js_scope with js.
Notation "a <? b" := (JS.lt a b) : js_scope.
Notation "a >? b" := (JS.gt a b) : js_scope.
Notation "a <=? b" := (JS.le a b) : js_scope.
Notation "a >=? b" := (JS.ge a b) : js_scope.
Notation "# q" := (JS.num q%Q) (at level 1, q at level 0, format "# q") : js_scope.

Import JS.

(* ===================================================================== *)
(** ** ruleEngine.js *)
(* ===================================================================== *)

(** [recommendations.push(s)] on the contents of the local array. *)
Definition push (s : string) (recommendations : list string) : list string :=
  recommendations ++ [s].

(** [if (c) recommendations.push(s);] with no [else] branch. *)
Definition push_if (c : bool) (s : string) (recommendations : list string)
  : list string :=
  if c then push s recommendations else recommendations.

(** *** The three-check revision *)

Module RuleEngineBasic.
Local Open Scope js_scope.

Definition ruleEngine (ph moisture temperature : value) : list string :=
  let recommendations := [] in
  (* Check soil pH *)
  let recommendations :=
    if ph <? #6 then
      push "Soil is acidic. Add lime to balance pH." recommendations
    else if ph >? #8 then
      push "Soil is alkaline. Add sulfur or organic compost." recommendations
    else
      push "Soil pH is optimal for most crops." recommendations in
  (* Check soil moisture *)
  let recommendations :=
    if moisture <? #30 then
      push "Soil is too dry. Irrigation is recommended." recommendations
    else if moisture >? #70 then
      push "Soil is waterlogged. Improve drainage." recommendations
    else
      push "Soil moisture is within a good range." recommendations in
  (* Check temperature (if provided) *)
  let recommendations :=
    if ToBoolean temperature then
      if temperature <? #15 then
        push "Temperature is low. Consider frost protection." recommendations
      else if temperature >? #35 then
        push "Temperature is high. Shade crops or increase irrigation." recommendations
      else
        push "Temperature is favorable for most crops." recommendations
    else recommendations in
  recommendations.

Definition temperature_tier : list string :=
  [ "Temperature is low. Consider frost protection.";
    "Temperature is high. Shade crops or increase irrigation.";
    "Temperature is favorable for most crops." ].

End RuleEngineBasic.

(** *** The progressive revision: Basic, Advanced, Scientific *)

Module RuleEngine.
Local Open Scope js_scope.

Definition ruleEngine (ph moisture temperature : value) : list string :=
  let recommendations := [] in
  (* 1. BASIC LEVEL *)
  (* Soil pH *)
  let recommendations :=
    if ph <? #6 then
      push "Soil is acidic. Add lime to balance pH." recommendations
    else if ph >? #8 then
      push "Soil is alkaline. Add sulfur or compost." recommendations
    else
      push "Soil pH is good for most crops." recommendations in
  (* Soil moisture *)
  let recommendations :=
    if moisture <? #30 then
      push "Soil is dry. Irrigation is recommended." recommendations
    else if moisture >? #70 then
      push "Soil is wet. Avoid overwatering." recommendations
    else
      push "Soil moisture is in a healthy range." recommendations in
  (* Temperature *)
  let recommendations :=
    if is_defined temperature then
      if temperature <? #15 then
        push "Temperature is low. Frost protection may be needed." recommendations
      else if temperature >? #35 then
        push "Temperature is high. Provide shade or extra water." recommendations
      else
        push "Temperature is suitable for most crops." recommendations
    else recommendations in
  (* 2. ADVANCED LEVEL *)
  (* Soil pH advanced *)
  let recommendations :=
    if ph <? #5.5 then
      push "Very acidic soil. Apply lime generously, monitor crop growth." recommendations
    else
      push_if (ph >? #8.5)
        "Strongly alkaline soil. Consider gypsum or acidifying organic matter."
        recommendations in
  (* Soil moisture advanced *)
  let recommendations :=
    if moisture <? #20 then
      push "Extremely dry soil. Use mulching and drip irrigation to conserve water." recommendations
    else
      push_if (moisture >? #80)
        "Excess water can cause root rot. Improve drainage or raised beds."
        recommendations in
  (* Temperature advanced *)
  let recommendations :=
    if temperature <? #10 then
      push "Severe cold stress. Use row covers or greenhouses for sensitive crops." recommendations
    else
      push_if (temperature >? #40)
        "Heat stress likely. Use shade nets and frequent irrigation."
        recommendations in
  (* 3. SCIENTIFIC LEVEL *)
  (* Nutrient availability *)
  let recommendations :=
    push_if ((ph <? #6) || (ph >? #8))
      "Nutrient availability may be limited. Conduct soil NPK test."
      recommendations in
  (* Pest/disease risk *)
  let recommendations :=
    push_if (((moisture >? #70) && (temperature >? #30)) || (temperature >? #35))
      "High humidity and heat can increase pest/fungal disease risk. Monitor closely and consider IPM strategies."
      recommendations in
  (* Crop-specific tips *)
  let recommendations :=
    push_if ((ph >=? #6) && (ph <=? #7.5) && (moisture >=? #30) && (moisture <=? #70))
      "Conditions are optimal for crops like wheat, rice, maize, and vegetables."
      recommendations in
  recommendations.

(** Names for the messages, by tier. *)
Definition msg_acidic := "Soil is acidic. Add lime to balance pH.".
Definition msg_alkaline := "Soil is alkaline. Add sulfur or compost.".
Definition msg_ph_optimal := "Soil pH is good for most crops.".
Definition msg_dry := "Soil is dry. Irrigation is recommended.".
Definition msg_waterlogged := "Soil is wet. Avoid overwatering.".
Definition msg_moisture_good := "Soil moisture is in a healthy range.".
Definition msg_temp_low := "Temperature is low. Frost protection may be needed.".
Definition msg_temp_high := "Temperature is high. Provide shade or extra water.".
Definition msg_temp_favorable := "Temperature is suitable for most crops.".
Definition msg_very_acidic :=
  "Very acidic soil. Apply lime generously, monitor crop growth.".
Definition msg_strongly_alkaline :=
  "Strongly alkaline soil. Consider gypsum or acidifying organic matter.".
Definition msg_extremely_dry :=
  "Extremely dry soil. Use mulching and drip irrigation to conserve water.".
Definition msg_root_rot :=
  "Excess water can cause root rot. Improve drainage or raised beds.".
Definition msg_severe_cold :=
  "Severe cold stress. Use row covers or greenhouses for sensitive crops.".
Definition msg_heat_stress :=
  "Heat stress likely. Use shade nets and frequent irrigation.".
Definition msg_nutrient :=
  "Nutrient availability may be limited. Conduct soil NPK test.".
Definition msg_pest :=
  "High humidity and heat can increase pest/fungal disease risk. Monitor closely and consider IPM strategies.".
Definition msg_crop :=
  "Conditions are optimal for crops like wheat, rice, maize, and vegetables.".

Definition ph_tier : list string := [msg_acidic; msg_alkaline; msg_ph_optimal].
Definition moisture_tier : list string :=
  [msg_dry; msg_waterlogged; msg_moisture_good].
Definition temperature_tier : list string :=
  [msg_temp_low; msg_temp_high; msg_temp_favorable].
Definition advanced_tier : list string :=
  [msg_very_acidic; msg_strongly_alkaline; msg_extremely_dry; msg_root_rot;
   msg_severe_cold; msg_heat_stress].
Definition scientific_warnings : list string := [msg_nutrient; msg_pest].
Definition scientific_tier : list string := scientific_warnings ++ [msg_crop].

End RuleEngine.

(** How many entries of [r] belong to the tier [tier]. *)
Definition count_tier (tier r : list string) : nat :=
  length (filter (fun m => m ∈ tier) r).

(** *** The array as an object in a heap

    [ruleEngine] creates the array with [let recommendations = []], mutates
    it with [push] and returns the reference.  The same statements are run
    here against a heap of arrays, so that what a call does to arrays that
    already exist, and whether two calls share their result, can be
    stated. *)

Module Heap.

Definition loc : Type := positive.

(** A computation over the heap of arrays. *)
Definition M (A : Type) : Type :=
  gmap loc (list string) -> A * gmap loc (list string).

Definition ret {A} (a : A) : M A := fun h => (a, h).

Definition bind {A B} (m : M A) (k : A -> M B) : M B :=
  fun h => let (a, h') := m h in k a h'.

(** [[]]: a new, empty array at an address not in use. *)
Definition new_array : M loc :=
  fun h => let l := fresh (dom h) in (l, <[l := []]> h).

(** [arr.push(s)] *)
Definition array_push (arr : loc) (s : string) : M unit :=
  fun h => (tt, alter (push s) arr h).

Definition skip : M unit := ret tt.

End Heap.

Declare Scope heap_scope.
Delimit Scope heap_scope with heap.
Notation "'let*' x := m 'in' k" := (Heap.bind m (fun x => k))
  (at level 10, x name, m at level 100, k at level 200) : heap_scope.
Notation "m ;; k" := (Heap.bind m (fun _ => k))
  (at level 100, k at level 200, right associativity) : heap_scope.

Module RuleEngineBasicHeap.
Local Open Scope js_scope.
Local Open Scope heap_scope.
Import Heap.

Definition ruleEngine (ph moisture temperature : value) : M loc :=
  let* recommendations := new_array in
  (if ph <? #6 then
     array_push recommendations "Soil is acidic. Add lime to balance pH."
   else if ph >? #8 then
     array_push recommendations "Soil is alkaline. Add sulfur or organic compost."
   else
     array_push recommendations "Soil pH is optimal for most crops.") ;;
  (if moisture <? #30 then
     array_push recommendations "Soil is too dry. Irrigation is recommended."
   else if moisture >? #70 then
     array_push recommendations "Soil is waterlogged. Improve drainage."
   else
     array_push recommendations "Soil moisture is within a good range.") ;;
  (if ToBoolean temperature then
     if temperature <? #15 then
       array_push recommendations "Temperature is low. Consider frost protection."
     else if temperature >? #35 then
       array_push recommendations "Temperature is high. Shade crops or increase irrigation."
     else
       array_push recommendations "Temperature is favorable for most crops."
   else skip) ;;
  ret recommendations.

End RuleEngineBasicHeap.

Module RuleEngineHeap.
Local Open Scope js_scope.
Local Open Scope heap_scope.
Import Heap RuleEngine.

Definition ruleEngine (ph moisture temperature : value) : M loc :=
  let* recommendations := new_array in
  (if ph <? #6 then array_push recommendations msg_acidic
   else if ph >? #8 then array_push recommendations msg_alkaline
   else array_push recommendations msg_ph_optimal) ;;
  (if moisture <? #30 then array_push recommendations msg_dry
   else if moisture >? #70 then array_push recommendations msg_waterlogged
   else array_push recommendations msg_moisture_good) ;;
  (if is_defined temperature then
     if temperature <? #15 then array_push recommendations msg_temp_low
     else if temperature >? #35 then array_push recommendations msg_temp_high
     else array_push recommendations msg_temp_favorable
   else skip) ;;
  (if ph <? #5.5 then array_push recommendations msg_very_acidic
   else if ph >? #8.5 then array_push recommendations msg_strongly_alkaline
   else skip) ;;
  (if moisture <? #20 then array_push recommendations msg_extremely_dry
   else if moisture >? #80 then array_push recommendations msg_root_rot
   else skip) ;;
  (if temperature <? #10 then array_push recommendations msg_severe_cold
   else if temperature >? #40 then array_push recommendations msg_heat_stress
   else skip) ;;
  (if (ph <? #6) || (ph >? #8) then array_push recommendations msg_nutrient
   else skip) ;;
  (if ((moisture >? #70) && (temperature >? #30)) || (temperature >? #35) then
     array_push recommendations msg_pest
   else skip) ;;
  (if (ph >=? #6) && (ph <=? #7.5) && (moisture >=? #30) && (moisture <=? #70) then
     array_push recommendations msg_crop
   else skip) ;;
  ret recommendations.

End RuleEngineHeap.

(* ===================================================================== *)
(** ** Strings *)
(* ===================================================================== *)

(** A [string] is read as a sequence of UTF-16 code units below 256
    (Basic Latin and Latin-1 Supplement), on which [trim] and
    [toLowerCase] are given by the following tables. *)

Module JSString.

Definition LF : string := String (ascii_of_nat 10) "".

(** WhiteSpace and LineTerminator code points below 256: TAB, LF, VT, FF,
    CR, SP and NBSP. *)
Definition is_whitespace (c : ascii) : bool :=
  let n := N_of_ascii c in
  ((9 <=? n) && (n <=? 13) || (n =? 32) || (n =? 160))%N.

Fixpoint trimStart (s : string) : string :=
  match s with
  | String c s' => if is_whitespace c then trimStart s' else s
  | EmptyString => EmptyString
  end.

Fixpoint trimEnd (s : string) : string :=
  match s with
  | String c s' =>
      match trimEnd s' with
      | EmptyString =>
          if is_whitespace c then EmptyString else String c EmptyString
      | rest => String c rest
      end
  | EmptyString => EmptyString
  end.

Definition trim (s : string) : string := trimEnd (trimStart s).

(** Simple lower-case mapping below 256: A-Z, and the capitals
    U+00C0-U+00DE except the multiplication sign U+00D7. *)
Definition lower (c : ascii) : ascii :=
  let n := N_of_ascii c in
  if ((65 <=? n) && (n <=? 90)
      || (192 <=? n) && (n <=? 222) && negb (n =? 215))%N
  then ascii_of_N (n + 32) else c.

Fixpoint toLowerCase (s : string) : string :=
  match s with
  | String c s' => String (lower c) (toLowerCase s')
  | EmptyString => EmptyString
  end.

(** [s] consists of white space only. *)
Fixpoint all_whitespace (s : string) : bool :=
  match s with
  | String c s' => is_whitespace c && all_whitespace s'
  | EmptyString => true
  end.

(** [lines.join("\n")] *)
Definition join_lines (lines : list string) : string :=
  String.concat LF lines.

(** [arr.slice(-n)]: the last [n] elements, all of them when there are
    fewer. *)
Definition slice_last {A} (n : nat) (arr : list A) : list A :=
  drop (length arr - n) arr.

(** [s] occurs in [t] as a substring. *)
Definition includes (t s : string) : bool :=
  match String.index 0 s t with Some _ => true | None => false end.

End JSString.

Import JSString.

(* ===================================================================== *)
(** ** preassignedCommands.js and aiPersonality.js *)
(* ===================================================================== *)

(** What a handler can hand back: a string, or the value of a property
    that [commands] inherits from [Object.prototype]. *)
Inductive reply : Type :=
  | Text (s : string)
  | Inherited (key : string).

Module Commands.

Definition commands : gmap string string :=
  list_to_map
    [ ("help", "You can ask me about soil health, crop recommendations, pest management, and general agriculture advice.");
      ("who are you", "I am AgroBot, your professional agriculture assistant. I provide guidance on crops, soil, and farming best practices.");
      ("hello", "Hello! How can I assist you with your farm or garden today?");
      ("hi", "Hi there! Ask me anything about agriculture.");
      ("thank you", "You're welcome! Happy to help with your agricultural queries.");
      ("bye", "Goodbye! Wishing you a successful harvest.") ].

(** The lower-case names that an object literal inherits from
    [Object.prototype]; both hold an object, which is truthy. *)
Definition inherited (key : string) : bool :=
  (key =? "constructor") || (key =? "__proto__").

(** [commands[key] || null]; [None] is [null]. *)
Definition getPreassignedCommand (message : string) : option reply :=
  let key := toLowerCase (trim message) in
  match commands !! key with
  | Some "" => None
  | Some response => Some (Text response)
  | None => if inherited key then Some (Inherited key) else None
  end.

End Commands.

Module Personality.

Definition AI_PERSONALITY_DESCRIPTION : string :=
  LF +:+ "You are a professional and easy-to-understand agriculture AI." +:+
  LF +:+ "Provide concise, accurate, and friendly guidance for farmers and students." +:+
  LF +:+ "Always keep answers simple, clear, and practical." +:+ LF.

Definition getAIPersonality : string := AI_PERSONALITY_DESCRIPTION.

End Personality.

(* ===================================================================== *)
(** ** The completion service and the handlers' effects *)
(* ===================================================================== *)

Module Net.

(** A parsed JSON document. *)
Inductive json : Type :=
  | JNull
  | JBool (b : bool)
  | JNum (n : number)
  | JStr (s : string)
  | JArr (items : list json)
  | JObj (fields : list (string * json)).

(** What a [throw] or a rejected promise carries. *)
Inductive exn : Type :=
  | NetworkError
  | SyntaxError
  | TypeError.

(** The POST the handlers send: endpoint, and the [prompt] and
    [max_tokens] fields of the body. *)
Record request : Type := Request {
  url : string;
  prompt : string;
  max_tokens : Z
}.

(** The request either rejects (no connection, a status the client
    refuses, a body that [response.json()] cannot parse), or resolves to
    the data of the response. *)
Inductive response : Type :=
  | Rejected (e : exn)
  | Resolved (data : json).

(** The world outside the handlers: the lines written with
    [console.error], the requests sent to the completion service, and the
    messages looked up in the command table, each in order of
    occurrence. *)
Record world : Type := World {
  console : list (string * exn);
  requests : list request;
  lookups : list string
}.

Inductive result (A : Type) : Type :=
  | Returned (a : A)
  | Thrown (e : exn).
Arguments Returned {A} a.
Arguments Thrown {A} e.

(** A handler step: it returns or throws, and leaves a new world. *)
Definition M (A : Type) : Type := world -> result A * world.

Definition ret {A} (a : A) : M A := fun w => (Returned a, w).

Definition throw {A} (e : exn) : M A := fun w => (Thrown e, w).

Definition bind {A B} (m : M A) (k : A -> M B) : M B :=
  fun w =>
    match m w with
    | (Returned a, w') => k a w'
    | (Thrown e, w') => (Thrown e, w')
    end.

(** [try { m } catch (err) { handler }] *)
Definition try_catch {A} (m : M A) (handler : exn -> M A) : M A :=
  fun w =>
    match m w with
    | (Returned a, w') => (Returned a, w')
    | (Thrown e, w') => handler e w'
    end.

(** [console.error(label, err)] *)
Definition console_error (label : string) (err : exn) : M unit :=
  fun w =>
    (Returned tt, {| console := console w ++ [(label, err)];
                     requests := requests w;
                     lookups := lookups w |}).

(** Sending [req] to the completion service [service] and awaiting the
    data of its response. *)
Definition post (service : request -> response) (req : request) : M json :=
  fun w =>
    let w' := {| console := console w;
                 requests := requests w ++ [req];
                 lookups := lookups w |} in
    match service req with
    | Rejected e => (Thrown e, w')
    | Resolved data => (Returned data, w')
    end.

(** [data.answer]: a TypeError on [null], the field of an object when it
    has one, [undefined] ([None]) on anything else. *)
Fixpoint field (name : string) (fields : list (string * json)) : option json :=
  match fields with
  | [] => None
  | (k, v) :: rest => if (k =? name)%string then Some v else field name rest
  end.

Definition answer_of (data : json) : M (option json) :=
  match data with
  | JNull => throw TypeError
  | JObj fields => ret (field "answer" fields)
  | _ => ret None
  end.

(** ToBoolean on JSON data. *)
Definition truthy (j : json) : bool :=
  match j with
  | JNull => false
  | JBool b => b
  | JNum n => ToBoolean (VNum n)
  | JStr s => negb (s =? "")%string
  | JArr _ | JObj _ => true
  end.

(** [v.trim()]: only strings have the method. *)
Definition call_trim (v : json) : M string :=
  match v with
  | JStr s => ret (trim s)
  | _ => throw TypeError
  end.

End Net.

Declare Scope handler_scope.
Delimit Scope handler_scope with handler.
Notation "'let*' x := m 'in' k" := (Net.bind m (fun x => k))
  (at level 10, x name, m at level 100, k at level 200) : handler_scope.
Notation "m ;; k" := (Net.bind m (fun _ => k))
  (at level 100, k at level 200, right associativity) : handler_scope.
Notation "'try' m 'catch' err => h" := (Net.try_catch m (fun err => h))
  (at level 10, err name, m at level 200, h at level 200) : handler_scope.

(** One turn of a conversation, [{ role, content }]. *)
Record ChatTurn : Type := Turn {
  role : string;
  content : string
}.

(* ===================================================================== *)
(** ** perplexity-chat-handler.js *)
(* ===================================================================== *)

Module Chat.
Import Net.
Local Open Scope handler_scope.

Section Handler.

(** The completion service behind [axios.post]: it rejects on a network
    error or a refused status and otherwise resolves to [response.data]
    (the parsed body, or the body as a string when it is not JSON). *)
Variable service : request -> response.

Definition axios_post (endpoint : string) (prompt : string) (maxTokens : Z)
  : M json :=
  post service (Request endpoint prompt maxTokens).

(** The call of [getPreassignedCommand], noted in the world. *)
Definition call_getPreassignedCommand (message : string) : M (option reply) :=
  fun w =>
    (Returned (Commands.getPreassignedCommand message),
     {| console := console w;
        requests := requests w;
        lookups := lookups w ++ [message] |}).

Definition queryPerplexityAI (prompt : string) (maxTokens : Z) : M json :=
  try
    (let* data := axios_post "https://api.perplexity.ai/search" prompt maxTokens in
     let* answer := answer_of data in
     match answer with
     | Some a => if truthy a then ret a else ret (JStr "AI failed to respond")
     | None => ret (JStr "AI failed to respond")
     end)
  catch err =>
    (console_error "❌ Perplexity API error:" err ;;
     ret (JStr "AI failed to respond")).

(** [`${m.role === "user" ? "User" : "AI"}: ${m.content}`] *)
Definition render (m : ChatTurn) : string :=
  (if (role m =? "user")%string then "User" else "AI") +:+ ": " +:+ content m.

Definition last5Messages (messages : list ChatTurn) : string :=
  join_lines (map render (slice_last 5 messages)).

(** The template of the prompt around the rendered history. *)
Definition aiPrompt (last5Messages : string) : string :=
  let personalityDesc := Personality.getAIPersonality in
  personalityDesc +:+ LF +:+ "Chat History:" +:+ LF +:+ last5Messages +:+ LF
  +:+ "AI (reply max 100 tokens, aim ~30 tokens):".

(** [messages] is [None] when the argument is missing. *)
Definition askPerplexityChat (messages : option (list ChatTurn)) : M reply :=
  try
    (match messages with
     | None | Some [] => ret (Text "No messages provided")
     | Some (m :: ms) =>
         let userMessage := content (List.last ms m) in
         (* Step 1: Check preassigned commands *)
         let* commandResponse := call_getPreassignedCommand userMessage in
         match commandResponse with
         | Some commandResponse => ret commandResponse
         | None =>
             (* Step 2: Build AI prompt with personality + last 5 messages *)
             let last5Messages := last5Messages (m :: ms) in
             let aiPrompt := aiPrompt last5Messages in
             (* Step 3: Query Perplexity AI *)
             let* aiReply := queryPerplexityAI aiPrompt 100 in
             let* trimmed := call_trim aiReply in
             ret (Text trimmed)
         end
     end)
  catch err =>
    (console_error "❌ askPerplexityChat error:" err ;;
     ret (Text "AI failed to respond")).

End Handler.
End Chat.

(* ===================================================================== *)
(** ** perplexity-recommend-handler.js *)
(* ===================================================================== *)

Module Recommend.
Import Net.
Local Open Scope handler_scope.

(** The fields the handler destructures from [params]. *)
Record Params : Type := {
  ph : value;
  moisture : value;
  temperature : value;
  desiredCrop : option string
}.

Section Handler.

(** The completion service behind [fetch] followed by [response.json()]:
    it rejects when the request fails or the body is not JSON. *)
Variable service : request -> response.

(** Number::toString of the language, used by the template literal. *)
Variable NumberToString : number -> string.

Definition ToString (v : value) : string :=
  match v with
  | VUndefined => "undefined"
  | VNull => "null"
  | VBool true => "true"
  | VBool false => "false"
  | VNum n => NumberToString n
  | VOther _ _ s => s
  end.

(** The default export of aiPersonality.js is a string, so its
    [description] property is [undefined]. *)
Definition aiPersonality_description : value := VUndefined.

Definition fetch_json (endpoint : string) (prompt : string) (maxTokens : Z)
  : M json :=
  post service (Request endpoint prompt maxTokens).

(** [answer?.trim()]: [undefined] ([None]) when [answer] is [undefined]
    or [null]. *)
Definition optional_trim (answer : option json) : M (option string) :=
  match answer with
  | None | Some JNull => ret None
  | Some a => let* t := call_trim a in ret (Some t)
  end.

(** [s || fallback] *)
Definition or_else (s : option string) (fallback : string) : string :=
  match s with
  | None | Some "" => fallback
  | Some t => t
  end.

Definition askPerplexityRecommend (params : Params) : M string :=
  let '(ph, moisture, temperature, desiredCrop) :=
    (ph params, moisture params, temperature params, desiredCrop params) in
  try
    (let prompt :=
       LF +:+ "You are an agriculture AI assistant. Your personality is: "
          +:+ ToString aiPersonality_description +:+
       LF +:+ "Given the following soil data:" +:+
       LF +:+ "- pH: " +:+ ToString ph +:+
       LF +:+ "- Moisture: " +:+ ToString moisture +:+
       LF +:+ "- Temperature: " +:+ ToString temperature +:+
       LF +:+ "- Desired Crop: " +:+ or_else desiredCrop "any suitable crop" +:+
       LF +:+
       LF +:+ "Provide a professional, easy-to-understand crop or soil recommendation." +:+
       LF in
     let* data := fetch_json "https://api.perplexity.ai/v1/query" prompt 100 in
     let* answer := answer_of data in
     let* trimmed := optional_trim answer in
     ret (or_else trimmed "AI failed to provide a recommendation."))
  catch err =>
    (console_error "❌ Error in Perplexity recommendation:" err ;;
     ret "AI failed to provide a recommendation.").

End Handler.
End Recommend.

(* ===================================================================== *)
(** ** The [/chat] route: preparing [messages] *)
(* ===================================================================== *)

Module Server.

(** A row of [ai_chats], as selected by the route. *)
Record chat_row : Type := Row {
  sender : string;
  message : string
}.

(** [SELECT sender, message FROM ai_chats WHERE user_id=? ORDER BY
    timestamp ASC LIMIT 5], on the rows of the user given in ascending
    order of timestamp. *)
Definition historyRows (rows : list chat_row) : list chat_row :=
  take 5 rows.

Definition messagesForAI (rows : list chat_row) (newMessage : string)
  : list ChatTurn :=
  map (fun m => {| role := if (sender m =? "user")%string then "user" else "assistant";
                   content := message m |})
      (historyRows rows)
  ++ [ {| role := "user"; content := newMessage |} ].

End Server.

(* ===================================================================== *)
(** ** The other revisions of the handlers *)
(* ===================================================================== *)

(** *** perplexity-chat-handler.js, the node-fetch revision *)

Module ChatFetch.
Import Net.
Local Open Scope handler_scope.

Section Handler.

(** The completion service behind [fetch] followed by [response.json()]. *)
Variable service : request -> response.

Definition fetch_json (endpoint : string) (prompt : string) (maxTokens : Z)
  : M json :=
  post service (Request endpoint prompt maxTokens).

Definition queryPerplexityAI (prompt : string) (maxTokens : Z) : M json :=
  try
    (let* data := fetch_json "https://api.perplexity.ai/v1/query" prompt maxTokens in
     let* answer := answer_of data in
     match answer with
     | Some a => if truthy a then ret a else ret (JStr "AI failed to respond")
     | None => ret (JStr "AI failed to respond")
     end)
  catch err =>
    (console_error "❌ Perplexity API error:" err ;;
     ret (JStr "AI failed to respond")).

Definition aiPrompt (last5Messages : string) : string :=
  let personalityDesc := Personality.getAIPersonality in
  personalityDesc +:+ LF +:+ "Chat History:" +:+ LF +:+ last5Messages +:+ LF
  +:+ "AI (reply max 100 tokens, avg ~30 tokens):".

(** [messages[messages.length - 1].content]: a TypeError when [messages]
    is missing, and when it is empty, as the element is [undefined]. *)
Definition last_content (messages : option (list ChatTurn)) : M string :=
  match messages with
  | None => throw TypeError
  | Some ms =>
      match last ms with
      | None => throw TypeError
      | Some m => ret (content m)
      end
  end.

Definition askPerplexityChat (messages : option (list ChatTurn)) : M reply :=
  try
    (let* userMessage := last_content messages in
     (* Step 1: Check preassigned commands *)
     let* commandResponse := Chat.call_getPreassignedCommand userMessage in
     match commandResponse with
     | Some commandResponse => ret commandResponse
     | None =>
         (* Step 2: Build AI prompt *)
         let last5Messages := Chat.last5Messages (default [] messages) in
         let aiPrompt := aiPrompt last5Messages in
         (* Step 3: Query Perplexity AI *)
         let* aiReply := queryPerplexityAI aiPrompt 100 in
         let* trimmed := call_trim aiReply in
         ret (Text trimmed)
     end)
  catch err =>
    (console_error "❌ askPerplexityChat error:" err ;;
     ret (Text "AI failed to respond")).

End Handler.
End ChatFetch.

(** *** perplexity-recommend-handler.js, the revision without the
    personality *)

Module RecommendPlain.
Import Net.
Local Open Scope handler_scope.

Section Handler.

Variable service : request -> response.
Variable NumberToString : number -> string.

Definition askPerplexityRecommend (params : Recommend.Params) : M string :=
  let '(ph, moisture, temperature, desiredCrop) :=
    (Recommend.ph params, Recommend.moisture params,
     Recommend.temperature params, Recommend.desiredCrop params) in
  try
    (let prompt :=
       LF +:+ "You are a professional agriculture AI assistant." +:+
       LF +:+ "Given the following soil data:" +:+
       LF +:+ "- pH: " +:+ Recommend.ToString NumberToString ph +:+
       LF +:+ "- Moisture: " +:+ Recommend.ToString NumberToString moisture +:+
       LF +:+ "- Temperature: " +:+ Recommend.ToString NumberToString temperature +:+
       LF +:+ "- Desired Crop: "
          +:+ Recommend.or_else desiredCrop "any suitable crop" +:+
       LF +:+
       LF +:+ "Provide a concise, easy-to-understand crop or soil recommendation." +:+
       LF in
     let* data := Recommend.fetch_json service "https://api.perplexity.ai/search" prompt 100 in
     let* answer := answer_of data in
     let* trimmed := Recommend.optional_trim answer in
     ret (Recommend.or_else trimmed "AI failed to provide a recommendation."))
  catch err =>
    (console_error "❌ Error in Perplexity recommendation:" err ;;
     ret "AI failed to provide a recommendation.").

End Handler.
End RecommendPlain.

(* ===================================================================== *)
(** ** The [/recommend] and [/chat] routes *)
(* ===================================================================== *)

Module Routes.
Import Net.

(** The object handed to [res.json]. *)
Inductive body : Type :=
  | ErrorBody (error : string)
  | RecommendBody (ruleEngine : list string) (aiResponse : string)
  | ChatBody (aiResponse : reply).

(** [res.status(code).json(body)]; [res.json(body)] has status 200. *)
Record http_response : Type := Response {
  status : Z;
  payload : body
}.



Section Recommend.
Local Open Scope handler_scope.

(** [import { ruleEngine } from "./ruleEngine.js"]: either revision. *)
Variable ruleEngine : value -> value -> value -> list string.
Variable service : request -> response.
Variable NumberToString : number -> string.


End Recommend.

(** The statements the [/chat] route sends to the database. *)
Inductive query : Type :=
  | SelectActiveSession (userId : value)
  | InsertSession (userId : value)
  | SelectHistory (userId : value)
  | InsertChat (sessionId : Z) (userId : value) (message : reply)
      (sender : string).

(** The route runs over the handlers' world and the statements sent to
    the database so far. *)
Record state : Type := State {
  world_of : world;
  queries : list query
}.

Definition R (A : Type) : Type := state -> result A * state.

Definition ret {A} (a : A) : R A := fun s => (Returned a, s).

Definition bind {A B} (m : R A) (k : A -> R B) : R B :=
  fun s =>
    match m s with
    | (Returned a, s') => k a s'
    | (Thrown e, s') => (Thrown e, s')
    end.

Definition try_catch {A} (m : R A) (handler : exn -> R A) : R A :=
  fun s =>
    match m s with
    | (Returned a, s') => (Returned a, s')
    | (Thrown e, s') => handler e s'
    end.

(** A handler step, run on the world of the state. *)
Definition lift {A} (m : M A) : R A :=
  fun s =>
    let (r, w') := m (world_of s) in
    (r, {| world_of := w'; queries := queries s |}).

(** [await db.query(...)]: the statement [q] is sent; [answer] is what
    the database makes of it after the statements sent before. *)
Definition db_query {A} (q : query) (answer : list query -> exn + A) : R A :=
  fun s =>
    let s' := {| world_of := world_of s; queries := queries s ++ [q] |} in
    match answer (queries s) with
    | inl e => (Thrown e, s')
    | inr a => (Returned a, s')
    end.

End Routes.

Declare Scope route_scope.
Delimit Scope route_scope with route.
Notation "'let*' x := m 'in' k" := (Routes.bind m (fun x => k))
  (at level 10, x name, m at level 100, k at level 200) : route_scope.
Notation "m ;; k" := (Routes.bind m (fun _ => k))
  (at level 100, k at level 200, right associativity) : route_scope.
Notation "'try' m 'catch' err => h" := (Routes.try_catch m (fun err => h))
  (at level 10, err name, m at level 200, h at level 200) : route_scope.

Module ChatRoute.
Import Net Routes.
Local Open Scope route_scope.

Section Route.

(** The completion service and the database.  Each statement is answered
    from the statements sent before it: the rows of the active session of
    a user, the id of an inserted session, the rows of [ai_chats] of a
    user in ascending order of timestamp, and whether an insertion into
    [ai_chats] went through. *)
Variable service : request -> response.
Variable active_session : list query -> value -> exn + list Z.
Variable new_session : list query -> value -> exn + Z.
Variable chat_rows : list query -> value -> exn + list Server.chat_row.
Variable store_chat : list query -> Z -> value -> reply -> string -> exn + unit.

Definition chat (message : string) (userId : value) : R http_response :=
  try
    (if (message =? "")%string || negb (ToBoolean userId) then
       ret (Response 400 (ErrorBody "Message and userId required"))
     else
       (* Fetch or create chat session (one active session per user). *)
       let* rows :=
         db_query (SelectActiveSession userId)
           (fun sent => active_session sent userId) in
       let* sessionId :=
         match rows with
         | [] =>
             db_query (InsertSession userId)
               (fun sent => new_session sent userId)
         | session_id :: _ => ret session_id
         end in
       (* Fetch recent chat history (last 5 messages, ordered by timestamp). *)
       let* historyRows :=
         db_query (SelectHistory userId) (fun sent => chat_rows sent userId) in
       (* Save user message to DB. *)
       db_query (InsertChat sessionId userId (Text message) "user")
         (fun sent => store_chat sent sessionId userId (Text message) "user") ;;
       (* Prepare messages array for AI *)
       let messagesForAI := Server.messagesForAI historyRows message in
       (* Call Perplexity AI chat handler *)
       let* aiResponse :=
         lift (Chat.askPerplexityChat service (Some messagesForAI)) in
       (* Save AI response to DB. *)
       db_query (InsertChat sessionId userId aiResponse "ai")
         (fun sent => store_chat sent sessionId userId aiResponse "ai") ;;
       ret (Response 200 (ChatBody aiResponse)))
  catch err =>
    (lift (console_error "âŒ /chat error:" err) ;;
     ret (Response 500 (ChatBody (Text "AI failed to respond")))).

End Route.
End ChatRoute.

(* ===================================================================== *)
(** ** Notions used in the statements *)
(* ===================================================================== *)

(** The progressive engine read tier by tier: what each group of
    statements appends. *)
Module Tiers.
Import RuleEngine.
Local Open Scope js_scope.

Definition basic_ph (ph : value) : string :=
  if ph <? #6 then msg_acidic
  else if ph >? #8 then msg_alkaline
  else msg_ph_optimal.

Definition basic_moisture (moisture : value) : string :=
  if moisture <? #30 then msg_dry
  else if moisture >? #70 then msg_waterlogged
  else msg_moisture_good.

Definition basic_temperature (temperature : value) : list string :=
  if is_defined temperature then
    [ if temperature <? #15 then msg_temp_low
      else if temperature >? #35 then msg_temp_high
      else msg_temp_favorable ]
  else [].

Definition advanced_ph (ph : value) : list string :=
  if ph <? #5.5 then [msg_very_acidic]
  else if ph >? #8.5 then [msg_strongly_alkaline]
  else [].

Definition advanced_moisture (moisture : value) : list string :=
  if moisture <? #20 then [msg_extremely_dry]
  else if moisture >? #80 then [msg_root_rot]
  else [].

Definition advanced_temperature (temperature : value) : list string :=
  if temperature <? #10 then [msg_severe_cold]
  else if temperature >? #40 then [msg_heat_stress]
  else [].

Definition scientific (ph moisture temperature : value) : list string :=
  (if (ph <? #6) || (ph >? #8) then [msg_nutrient] else [])
  ++ (if ((moisture >? #70) && (temperature >? #30)) || (temperature >? #35)
      then [msg_pest] else [])
  ++ (if (ph >=? #6) && (ph <=? #7.5) && (moisture >=? #30) && (moisture <=? #70)
      then [msg_crop] else []).

End Tiers.

(** A call [call] is pure with result [result] when, from any heap, it
    returns a new array holding [result] and leaves every array that
    existed as it was, so that a second call returns another array with
    the same contents and does not disturb the first. *)
Definition pure_call (call : Heap.M Heap.loc) (result : list string) : Prop :=
  forall h : gmap Heap.loc (list string),
    let (r1, h1) := call h in
    let (r2, h2) := call h1 in
    h1 !! r1 = Some result /\ h2 !! r2 = Some result /\
    h2 !! r1 = Some result /\ r1 <> r2 /\ h !! r1 = None /\
    (forall l, is_Some (h !! l) -> h2 !! l = h !! l).

(** The completion service fails on a request: the request rejects, or
    the data of the response has no [answer] field. *)
Definition fails (r : Net.response) : bool :=
  match r with
  | Net.Rejected _ => true
  | Net.Resolved (Net.JObj fields) =>
      match Net.field "answer" fields with Some _ => false | None => true end
  | Net.Resolved _ => true
  end.

(** The [messages] argument for a history of prior turns and a new user
    message. *)
Definition conversation (history : list ChatTurn) (newMessage : string)
  : list ChatTurn :=
  history ++ [ {| role := "user"; content := newMessage |} ].

(** The prompt that carries exactly the turns [turns], in order. *)
Definition prompt_with_turns (turns : list ChatTurn) : string :=
  Chat.aiPrompt (join_lines (map Chat.render turns)).

(** The request of the chat handler for the prompt [p]. *)
Definition chat_request (p : string) : Net.request :=
  Net.Request "https://api.perplexity.ai/search" p 100.

(** Concrete inputs. *)
Module Examples.
Import Net.

Definition empty_world : world := World [] [] [].

Definition unreachable (req : request) : response := Rejected NetworkError.

Definition answering (req : request) : response :=
  Resolved (JObj [("answer", JStr "  Plant wheat after the rains. ")]).

Definition no_answer (req : request) : response :=
  Resolved (JObj [("error", JStr "rate limited")]).

Definition history8 : list ChatTurn :=
  [ Turn "user" "turn 1"; Turn "assistant" "turn 2";
    Turn "user" "turn 3"; Turn "assistant" "turn 4";
    Turn "user" "turn 5"; Turn "assistant" "turn 6";
    Turn "user" "turn 7"; Turn "assistant" "turn 8" ].

Definition rows8 : list Server.chat_row :=
  [ Server.Row "user" "turn 1"; Server.Row "ai" "turn 2";
    Server.Row "user" "turn 3"; Server.Row "ai" "turn 4";
    Server.Row "user" "turn 5"; Server.Row "ai" "turn 6";
    Server.Row "user" "turn 7"; Server.Row "ai" "turn 8" ].

Definition question : string := "Which crop suits clay soil?".

Definition reading : Recommend.Params :=
  {| Recommend.ph := num 6.5; Recommend.moisture := num 50;
     Recommend.temperature := VUndefined; Recommend.desiredCrop := None |}.

Definition show_number (n : number) : string :=
  match n with
  | NaN => "NaN" | PosInf => "Infinity" | NegInf => "-Infinity"
  | Fin _ => "6.5"
  end.

End Examples.

(* ===================================================================== *)
(** ** Further notions *)
(* ===================================================================== *)

(** The place of a message in the order of the statements of the
    progressive engine, from 1 (basic pH) to 9 (crop tips); 0 for a
    string that is no message of the engine. *)
Definition rank (m : string) : nat :=
  if decide (m ∈ RuleEngine.ph_tier) then 1
  else if decide (m ∈ RuleEngine.moisture_tier) then 2
  else if decide (m ∈ RuleEngine.temperature_tier) then 3
  else if decide (m ∈ [RuleEngine.msg_very_acidic;
                       RuleEngine.msg_strongly_alkaline]) then 4
  else if decide (m ∈ [RuleEngine.msg_extremely_dry;
                       RuleEngine.msg_root_rot]) then 5
  else if decide (m ∈ [RuleEngine.msg_severe_cold;
                       RuleEngine.msg_heat_stress]) then 6
  else if decide (m = RuleEngine.msg_nutrient) then 7
  else if decide (m = RuleEngine.msg_pest) then 8
  else if decide (m = RuleEngine.msg_crop) then 9
  else 0.

(** [[x]] when [b] holds, nothing otherwise. *)
Definition when (b : bool) (x : nat) : list nat := if b then [x] else [].

(** The messages of the three-check engine for pH and for moisture, in
    the order of their branches. *)
Module BasicTiers.

Definition ph_tier : list string :=
  [ "Soil is acidic. Add lime to balance pH.";
    "Soil is alkaline. Add sulfur or organic compost.";
    "Soil pH is optimal for most crops." ].

Definition moisture_tier : list string :=
  [ "Soil is too dry. Irrigation is recommended.";
    "Soil is waterlogged. Improve drainage.";
    "Soil moisture is within a good range." ].

End BasicTiers.


(** The answer of the completion service when it is a non-empty string:
    the request resolves, the data is an object, and its [answer] field
    holds the string. *)
Definition string_answer (r : Net.response) : option string :=
  match r with
  | Net.Resolved (Net.JObj fields) =>
      match Net.field "answer" fields with
      | Some (Net.JStr s) => if (s =? "")%string then None else Some s
      | _ => None
      end
  | _ => None
  end.

(** The requests of the two revisions of the chat handler for the
    rendered history [history]. *)
Definition axios_request (history : string) : Net.request :=
  Net.Request "https://api.perplexity.ai/search" (Chat.aiPrompt history) 100.


(** A database for the examples: user 7 has the active session 3 and
    the rows of [Examples.rows8]; every insertion goes through. *)
Module ExampleDatabase.
Import Net.

Definition active_session (sent : list Routes.query) (userId : value)
  : exn + list Z := inr [3%Z].

Definition new_session (sent : list Routes.query) (userId : value)
  : exn + Z := inr 4%Z.

Definition chat_rows (sent : list Routes.query) (userId : value)
  : exn + list Server.chat_row := inr Examples.rows8.

Definition store_chat (sent : list Routes.query) (sessionId : Z)
    (userId : value) (message : reply) (sender : string) : exn + unit :=
  inr tt.

(** The same database when its connection is lost after the message of
    the user was stored. *)
Definition store_chat_once (sent : list Routes.query) (sessionId : Z)
    (userId : value) (message : reply) (sender : string) : exn + unit :=
  if (sender =? "user")%string then inr tt else inl NetworkError.

Definition start : Routes.state := Routes.State Examples.empty_world [].

End ExampleDatabase.

(* ===================================================================== *)
(** ** Properties of the relational operators *)
(* ===================================================================== *)

Section Comparisons.
Local Open Scope js_scope.

Lemma Qltb_lt (a b : Q) : Qltb a b = true <-> (a < b)%Q.
Proof.
  unfold Qltb. rewrite Qlt_alt. destruct (a ?= b)%Q; split; congruence.
Qed.

Lemma lt_num (a b : Q) : (#a <? #b) = true <-> (a < b)%Q.
Proof. apply Qltb_lt. Qed.

Lemma gt_num (a b : Q) : (#a >? #b) = true <-> (b < a)%Q.
Proof. apply Qltb_lt. Qed.

(** A comparison with [undefined] is false, whatever the operator. *)
Lemma undefined_compares_false (v : value) :
  (VUndefined <? v) = false /\ (VUndefined >? v) = false /\
  (VUndefined <=? v) = false /\ (VUndefined >=? v) = false.
Proof.
  unfold lt, gt, le, ge; cbn.
  by destruct (ToNumber v).
Qed.

(** The comparisons see a finite number through its value only, not
    through the fraction that stands for it. *)
Lemma compare_Qeq (q q' : Q) (v : value) :
  (q == q')%Q ->
  (#q <? v) = (#q' <? v) /\ (#q >? v) = (#q' >? v) /\
  (#q <=? v) = (#q' <=? v) /\ (#q >=? v) = (#q' >=? v).
Proof.
  intros H. unfold lt, gt, le, ge, num; cbn.
  destruct (ToNumber v) as [| | |b]; cbn; try done.
  unfold Qltb.
  by rewrite (Qcompare_comp q q' H b b (Qeq_refl b)),
    (Qcompare_comp b b (Qeq_refl b) q q' H).
Qed.

(** The order is transitive through finite bounds: above [b] excludes
    below [a] when [a <= b]. *)
Lemma gt_excludes_lt (v : value) (a b : Q) :
  (a <= b)%Q -> (v >? #b) = true -> (v <? #a) = false.
Proof.
  unfold lt, gt, num; cbn. intros Hab.
  destruct (ToNumber v) as [| | |q]; cbn; try done.
  intros H%Qltb_lt. apply not_true_is_false. intros H'%Qltb_lt. lra.
Qed.

End Comparisons.

(* ===================================================================== *)
(** ** Properties of [trim] and [toLowerCase] *)
(* ===================================================================== *)

Section StringFacts.
Local Arguments is_whitespace : simpl never.
Local Arguments lower : simpl never.

Lemma trimStart_padding (pre s : string) :
  all_whitespace pre = true -> trimStart (pre +:+ s) = trimStart s.
Proof.
  induction pre as [|c pre IH]; simpl; [done|].
  intros [Hc Hpre]%andb_prop. rewrite Hc. by apply IH.
Qed.

Lemma trimEnd_whitespace (post : string) :
  all_whitespace post = true -> trimEnd post = "".
Proof.
  induction post as [|c post IH]; simpl; [done|].
  intros [Hc Hpost]%andb_prop. by rewrite IH, Hc.
Qed.

Lemma trimEnd_padding (s post : string) :
  all_whitespace post = true -> trimEnd (s +:+ post) = trimEnd s.
Proof.
  intros Hpost. induction s as [|c s IH]; simpl.
  - by apply trimEnd_whitespace.
  - by rewrite IH.
Qed.

Lemma trimStart_letter (c : ascii) (s t : string) :
  is_whitespace c = false -> trimStart (String c s +:+ t) = String c s +:+ t.
Proof. intros Hc. simpl. by rewrite Hc. Qed.

(** White space is not changed by the lower-case mapping. *)
Lemma lower_whitespace (c : ascii) : is_whitespace c = true -> lower c = c.
Proof.
  destruct c as [[] [] [] [] [] [] [] []]; intros H; try reflexivity;
    discriminate H.
Qed.

(** Any casing of "help" between any white space is normalized to
    "help". *)
Lemma padded_help_normalizes (pre cased post : string) :
  all_whitespace pre = true -> all_whitespace post = true ->
  toLowerCase cased = "help" ->
  toLowerCase (trim (pre +:+ cased +:+ post)) = "help".
Proof.
  intros Hpre Hpost Hcased.
  destruct cased as [|c1 [|c2 [|c3 [|c4 [|c5 rest]]]]]; try discriminate.
  injection Hcased as H1 H2 H3 H4.
  assert (Hfirst : is_whitespace c1 = false).
  { apply not_true_is_false. intros Hws.
    rewrite (lower_whitespace _ Hws) in H1. by subst c1. }
  assert (Hlast : is_whitespace c4 = false).
  { apply not_true_is_false. intros Hws.
    rewrite (lower_whitespace _ Hws) in H4. by subst c4. }
  unfold trim. rewrite trimStart_padding by done.
  rewrite trimStart_letter by done.
  rewrite trimEnd_padding by done.
  simpl. rewrite Hlast. simpl. by rewrite H1, H2, H3, H4.
Qed.

End StringFacts.

(* ===================================================================== *)
(** ** The progressive rule engine *)
(* ===================================================================== *)

Section RuleEngineFacts.
Import RuleEngine Tiers.
Local Open Scope list_scope.
Local Open Scope js_scope.

Lemma push_3 (c c' : bool) (a b d : string) (r : list string) :
  (if c then push a r else if c' then push b r else push d r)
  = r ++ [if c then a else if c' then b else d].
Proof. by destruct c, c'. Qed.

Lemma push_2 (c c' : bool) (a b : string) (r : list string) :
  (if c then push a r else push_if c' b r)
  = r ++ (if c then [a] else if c' then [b] else []).
Proof. destruct c, c'; cbn; by rewrite ?app_nil_r. Qed.

Lemma push_1 (c : bool) (a : string) (r : list string) :
  push_if c a r = r ++ (if c then [a] else []).
Proof. destruct c; cbn; by rewrite ?app_nil_r. Qed.

Lemma push_0 (c : bool) (x : string) (r : list string) :
  (if c then r ++ [x] else r) = r ++ (if c then [x] else []).
Proof. destruct c; by rewrite ?app_nil_r. Qed.

(** The engine appends the tiers in order: pH, moisture, temperature,
    then the advanced and the scientific checks. *)
Lemma ruleEngine_by_tier (ph moisture temperature : value) :
  ruleEngine ph moisture temperature
  = basic_ph ph :: basic_moisture moisture ::
      basic_temperature temperature
      ++ (advanced_ph ph ++ advanced_moisture moisture
          ++ advanced_temperature temperature)
      ++ scientific ph moisture temperature.
Proof.
  unfold ruleEngine. cbv zeta.
  rewrite !push_3, !push_2, !push_1, push_0.
  unfold basic_temperature, scientific.
  destruct (is_defined temperature); cbn; by rewrite <- ?app_assoc.
Qed.

(** *** Counting the messages of a tier *)

Lemma count_tier_app (tier r1 r2 : list string) :
  count_tier tier (r1 ++ r2) = (count_tier tier r1 + count_tier tier r2)%nat.
Proof. unfold count_tier. by rewrite filter_app, length_app. Qed.

Lemma count_tier_cons (tier : list string) (m : string) (r : list string) :
  count_tier tier (m :: r)
  = ((if decide (m ∈ tier) then 1 else 0) + count_tier tier r)%nat.
Proof. unfold count_tier. rewrite filter_cons. by destruct (decide _). Qed.

Lemma count_tier_other (tier tier' r : list string) :
  Forall (fun m => m ∈ tier') r -> Forall (fun m => m ∉ tier) tier' ->
  count_tier tier r = 0%nat.
Proof.
  intros Hr Hdisj. induction Hr as [|m r Hm _ IH]; [done|].
  rewrite count_tier_cons, IH, decide_False; [done|].
  rewrite Forall_forall in Hdisj. by apply Hdisj.
Qed.

Lemma count_tier_same (tier r : list string) :
  Forall (fun m => m ∈ tier) r -> count_tier tier r = length r.
Proof.
  intros Hr. induction Hr as [|m r Hm _ IH]; [done|].
  rewrite count_tier_cons, IH, decide_True; done.
Qed.

(** Each group of statements appends messages of its own tier only. *)
Lemma basic_ph_tier (ph : value) : basic_ph ph ∈ ph_tier.
Proof. unfold basic_ph. repeat case_match; compute_done. Qed.

Lemma basic_moisture_tier (moisture : value) :
  basic_moisture moisture ∈ moisture_tier.
Proof. unfold basic_moisture. repeat case_match; compute_done. Qed.

Lemma basic_temperature_tier (temperature : value) :
  Forall (fun m => m ∈ temperature_tier) (basic_temperature temperature).
Proof. unfold basic_temperature. repeat case_match; compute_done. Qed.

Lemma advanced_in_tier (ph moisture temperature : value) :
  Forall (fun m => m ∈ advanced_tier)
    (advanced_ph ph ++ advanced_moisture moisture
     ++ advanced_temperature temperature).
Proof.
  unfold advanced_ph, advanced_moisture, advanced_temperature.
  repeat case_match; compute_done.
Qed.

Lemma scientific_in_tier (ph moisture temperature : value) :
  Forall (fun m => m ∈ scientific_tier) (scientific ph moisture temperature).
Proof. unfold scientific. repeat case_match; compute_done. Qed.

Lemma other_tier (tier tier' : list string) (m : string) :
  m ∈ tier' -> Forall (fun m => m ∉ tier) tier' -> m ∉ tier.
Proof. intros Hm Hdisj. rewrite Forall_forall in Hdisj. by apply Hdisj. Qed.

Lemma count_tier_zero (tier r : list string) :
  count_tier tier r = 0%nat <-> forall m, m ∈ tier -> m ∉ r.
Proof.
  induction r as [|x r IH].
  - split; [intros _ m _; apply not_elem_of_nil | done].
  - rewrite count_tier_cons. destruct (decide (x ∈ tier)) as [Hx|Hx].
    + split; [done|]. intros H. destruct (H x Hx). left.
    + cbn. rewrite IH. split.
      * intros H m Hm [->|Hin]%elem_of_cons; [done|]. by apply (H m).
      * intros H m Hm Hin. apply (H m Hm). by right.
Qed.

(** Solves [count_tier tier (ruleEngine ...) = n] once the engine is read
    by tier: the messages of the other tiers do not count. *)
Ltac count_by_tier ph moisture temperature :=
  rewrite ruleEngine_by_tier, !count_tier_cons, count_tier_app, count_tier_app;
  first [ rewrite (decide_True (P := basic_ph ph ∈ _)) by apply basic_ph_tier
        | rewrite (decide_False (P := basic_ph ph ∈ _))
            by (apply (other_tier _ _ _ (basic_ph_tier ph)); compute_done) ];
  first [ rewrite (decide_True (P := basic_moisture moisture ∈ _))
            by apply basic_moisture_tier
        | rewrite (decide_False (P := basic_moisture moisture ∈ _))
            by (apply (other_tier _ _ _ (basic_moisture_tier moisture));
                compute_done) ];
  first [ rewrite (count_tier_same _ _ (basic_temperature_tier temperature))
        | rewrite (count_tier_other _ _ _ (basic_temperature_tier temperature))
            by compute_done ];
  rewrite (count_tier_other _ _ _ (advanced_in_tier ph moisture temperature))
    by compute_done;
  rewrite (count_tier_other _ _ _ (scientific_in_tier ph moisture temperature))
    by compute_done.

Lemma count_ph_tier (ph moisture temperature : value) :
  count_tier ph_tier (ruleEngine ph moisture temperature) = 1%nat.
Proof. by count_by_tier ph moisture temperature. Qed.

Lemma count_moisture_tier (ph moisture temperature : value) :
  count_tier moisture_tier (ruleEngine ph moisture temperature) = 1%nat.
Proof. by count_by_tier ph moisture temperature. Qed.

(** The number of temperature-tier messages tells whether [temperature]
    is defined. *)
Lemma count_temperature_tier (ph moisture temperature : value) :
  count_tier temperature_tier (ruleEngine ph moisture temperature)
  = if is_defined temperature then 1%nat else 0%nat.
Proof.
  count_by_tier ph moisture temperature.
  unfold basic_temperature. by destruct (is_defined temperature).
Qed.

(** The first two entries are the pH and the moisture message. *)
Lemma ruleEngine_first (ph moisture temperature : value) :
  ruleEngine ph moisture temperature !! 0%nat = Some (basic_ph ph).
Proof. by rewrite ruleEngine_by_tier. Qed.

Lemma ruleEngine_second (ph moisture temperature : value) :
  ruleEngine ph moisture temperature !! 1%nat = Some (basic_moisture moisture).
Proof. by rewrite ruleEngine_by_tier. Qed.

(** Membership in the result, tier by tier. *)
Lemma elem_of_ruleEngine (m : string) (ph moisture temperature : value) :
  m ∈ ruleEngine ph moisture temperature <->
  m = basic_ph ph \/ m = basic_moisture moisture \/
  m ∈ basic_temperature temperature \/
  m ∈ advanced_ph ph \/ m ∈ advanced_moisture moisture \/
  m ∈ advanced_temperature temperature \/
  m ∈ scientific ph moisture temperature.
Proof.
  rewrite ruleEngine_by_tier, !elem_of_cons, !elem_of_app. tauto.
Qed.

(** Readings that are equal as numbers get the same result. *)
Lemma ruleEngine_same_numbers (p p' m m' t t' : Q) :
  (p == p')%Q -> (m == m')%Q -> (t == t')%Q ->
  ruleEngine #p #m #t = ruleEngine #p' #m' #t'.
Proof.
  intros Hp Hm Ht. rewrite !ruleEngine_by_tier.
  unfold basic_ph, basic_moisture, basic_temperature, advanced_ph,
    advanced_moisture, advanced_temperature, scientific.
  pose proof (fun v => compare_Qeq p p' v Hp) as Ep.
  pose proof (fun v => compare_Qeq m m' v Hm) as Em.
  pose proof (fun v => compare_Qeq t t' v Ht) as Et.
  rewrite !(fun v => proj1 (Ep v)), !(fun v => proj1 (proj2 (Ep v))),
    !(fun v => proj1 (proj2 (proj2 (Ep v)))),
    !(fun v => proj2 (proj2 (proj2 (Ep v)))).
  rewrite !(fun v => proj1 (Em v)), !(fun v => proj1 (proj2 (Em v))),
    !(fun v => proj1 (proj2 (proj2 (Em v)))),
    !(fun v => proj2 (proj2 (proj2 (Em v)))).
  rewrite !(fun v => proj1 (Et v)), !(fun v => proj1 (proj2 (Et v))).
  reflexivity.
Qed.

(** For every input, the first element of the sequence returned by
    [ruleEngine] is the acidic-soil message when [ph < 6], the alkaline
    message when [ph > 8] and otherwise the optimal message; the second is
    the dry message when [moisture < 30], the waterlogged message when
    [moisture > 70] and otherwise the good-range message; at the bounds 6,
    8, 30 and 70 the optimal and the good-range message are returned; and
    exactly one pH-tier and one moisture-tier message appear (claim C1). *)
Theorem basic_ph_and_moisture_messages :
  (forall ph moisture temperature : value,
     let r := ruleEngine ph moisture temperature in
     ((ph <? #6) = true -> r !! 0%nat = Some msg_acidic) /\
     ((ph >? #8) = true -> r !! 0%nat = Some msg_alkaline) /\
     ((ph <? #6) = false -> (ph >? #8) = false ->
        r !! 0%nat = Some msg_ph_optimal) /\
     ((moisture <? #30) = true -> r !! 1%nat = Some msg_dry) /\
     ((moisture >? #70) = true -> r !! 1%nat = Some msg_waterlogged) /\
     ((moisture <? #30) = false -> (moisture >? #70) = false ->
        r !! 1%nat = Some msg_moisture_good) /\
     count_tier ph_tier r = 1%nat /\ count_tier moisture_tier r = 1%nat) /\
  (forall moisture temperature : value,
     ruleEngine #6 moisture temperature !! 0%nat = Some msg_ph_optimal /\
     ruleEngine #8 moisture temperature !! 0%nat = Some msg_ph_optimal) /\
  (forall ph temperature : value,
     ruleEngine ph #30 temperature !! 1%nat = Some msg_moisture_good /\
     ruleEngine ph #70 temperature !! 1%nat = Some msg_moisture_good).
Proof.
  split; [|split].
  - intros ph moisture temperature r. subst r.
    rewrite ruleEngine_first, ruleEngine_second, count_ph_tier,
      count_moisture_tier.
    unfold basic_ph, basic_moisture.
    repeat split.
    + by intros ->.
    + intros H. by rewrite (gt_excludes_lt ph 6 8), H.
    + by intros -> ->.
    + by intros ->.
    + intros H. by rewrite (gt_excludes_lt moisture 30 70), H.
    + by intros -> ->.
  - intros. by rewrite !ruleEngine_first.
  - intros. by rewrite !ruleEngine_second.
Qed.

Lemma basic_ph_and_moisture_messages_witness :
  ruleEngine #5 #25 #5 !! 0%nat = Some msg_acidic /\
  ruleEngine #9 #75 #5 !! 0%nat = Some msg_alkaline /\
  ruleEngine #7 #50 #5 !! 0%nat = Some msg_ph_optimal /\
  ruleEngine #5 #25 #5 !! 1%nat = Some msg_dry /\
  ruleEngine #9 #75 #5 !! 1%nat = Some msg_waterlogged /\
  ruleEngine #7 #50 #5 !! 1%nat = Some msg_moisture_good.
Proof.
  pose proof (proj1 basic_ph_and_moisture_messages #5 #25 #5) as H5.
  pose proof (proj1 basic_ph_and_moisture_messages #9 #75 #5) as H9.
  pose proof (proj1 basic_ph_and_moisture_messages #7 #50 #5) as H7.
  cbv zeta in H5, H9, H7.
  destruct H5 as (Ha & _ & _ & Hd & _).
  destruct H9 as (_ & Hb & _ & _ & Hw & _).
  destruct H7 as (_ & _ & Ho & _ & _ & Hg & _).
  exact (conj (Ha eq_refl) (conj (Hb eq_refl) (conj (Ho eq_refl eq_refl)
           (conj (Hd eq_refl) (conj (Hw eq_refl) (Hg eq_refl eq_refl)))))).
Defined.

Lemma is_defined_false (v : value) : is_defined v = false <-> v = VUndefined.
Proof. by destruct v. Qed.

(** In the progressive engine the temperature tier is absent from the
    result exactly when [temperature] is [undefined], and every number,
    0 and NaN included, gets exactly one message of the tier. *)
Lemma temperature_tier_iff_undefined (ph moisture temperature : value) :
  ((forall m, m ∈ temperature_tier -> m ∉ ruleEngine ph moisture temperature)
   <-> temperature = VUndefined) /\
  (forall n : number,
     count_tier temperature_tier (ruleEngine ph moisture (VNum n)) = 1%nat).
Proof.
  split.
  - rewrite <- count_tier_zero, count_temperature_tier, <- is_defined_false.
    by destruct (is_defined temperature).
  - intros n. by rewrite count_temperature_tier.
Qed.

(** The three-check engine tests [if (temperature)]: at the defined
    temperature 0 it returns the pH and the moisture message and no
    message of the temperature tier, where the progressive engine returns
    one (claim C3). *)
Theorem basic_engine_skips_zero_temperature :
  is_defined #0 = true /\
  RuleEngineBasic.ruleEngine #7 #50 #0
  = [ "Soil pH is optimal for most crops.";
      "Soil moisture is within a good range." ] /\
  count_tier RuleEngineBasic.temperature_tier
    (RuleEngineBasic.ruleEngine #7 #50 #0) = 0%nat /\
  count_tier temperature_tier (ruleEngine #7 #50 #0) = 1%nat.
Proof.
  split; [reflexivity|]. split; [|split].
  - by vm_compute.
  - by vm_compute.
  - by rewrite count_temperature_tier.
Qed.

(** The engine at (5.0, 25, 5), in full. *)
Lemma ruleEngine_5_25_5 :
  ruleEngine #5 #25 #5
  = [ msg_acidic; msg_dry; msg_temp_low; msg_very_acidic; msg_severe_cold;
      msg_nutrient ].
Proof. rewrite ruleEngine_by_tier. reflexivity. Qed.

(** The claim C5 as stated fails: the result at (5.0, 25, 5) does not
    include the message for extremely dry soil, as 25 is not below 20. *)
Lemma scenario_5_25_5_not_extremely_dry :
  ~ (msg_acidic ∈ ruleEngine #5 #25 #5 /\ msg_dry ∈ ruleEngine #5 #25 #5 /\
     msg_temp_low ∈ ruleEngine #5 #25 #5 /\
     msg_very_acidic ∈ ruleEngine #5 #25 #5 /\
     msg_extremely_dry ∈ ruleEngine #5 #25 #5 /\
     msg_severe_cold ∈ ruleEngine #5 #25 #5 /\
     msg_nutrient ∈ ruleEngine #5 #25 #5 /\
     msg_crop ∉ ruleEngine #5 #25 #5).
Proof.
  rewrite ruleEngine_5_25_5. intros (_ & _ & _ & _ & Hdry & _).
  revert Hdry. compute_done.
Qed.

(** The sequence returned by [ruleEngine(5.0, 25, 5)] includes the
    acidic-soil, the dry-soil, the low-temperature, the very-acidic, the
    severe-cold-stress and the nutrient-availability message, and includes
    neither the extremely-dry message (the moisture 25 is below 30 but not
    below 20) nor the crop-suitability message (claim C5, amended). *)
Theorem scenario_5_25_5 :
  let r := ruleEngine #5 #25 #5 in
  msg_acidic ∈ r /\ msg_dry ∈ r /\ msg_temp_low ∈ r /\ msg_very_acidic ∈ r /\
  msg_severe_cold ∈ r /\ msg_nutrient ∈ r /\
  (msg_extremely_dry ∉ r) /\ (msg_crop ∉ r) /\
  (#25 <? #30) = true /\ (#25 <? #20) = false.
Proof.
  cbv zeta. rewrite ruleEngine_5_25_5.
  repeat (split; [compute_done|]). reflexivity.
Qed.

(** For every [ph] and [moisture], when [temperature] is [undefined] the
    engine emits neither the severe-cold-stress nor the heat-stress
    message: the two advanced comparisons evaluate to false, they do not
    fail, and the advanced temperature check appends nothing
    (claim C7). *)
Theorem advanced_temperature_absent (ph moisture : value) :
  (VUndefined <? #10) = false /\ (VUndefined >? #40) = false /\
  advanced_temperature VUndefined = [] /\
  (msg_severe_cold ∉ ruleEngine ph moisture VUndefined) /\
  (msg_heat_stress ∉ ruleEngine ph moisture VUndefined).
Proof.
  split; [|split; [|split]]; try reflexivity.
  split; rewrite elem_of_ruleEngine; intros [H|[H|[H|[H|[H|[H|H]]]]]].
  all: try (by apply not_elem_of_nil in H).
  all: try (pose proof (basic_ph_tier ph) as T; rewrite <- H in T;
            revert T; compute_done).
  all: try (pose proof (basic_moisture_tier moisture) as T; rewrite <- H in T;
            revert T; compute_done).
  all: try (revert H; unfold advanced_ph, advanced_moisture;
            repeat case_match; compute_done).
  all: pose proof (scientific_in_tier ph moisture VUndefined) as Hs;
    rewrite Forall_forall in Hs; apply Hs in H; revert H; compute_done.
Qed.

(** The sequence returned by [ruleEngine(6.5, 50, 25)] consists of the
    optimal-pH, the good-moisture, the favorable-temperature and the
    crop-suitability message, and holds no message of the advanced tier
    and no scientific warning (claim C8). *)
Theorem scenario_65_50_25 :
  let r := ruleEngine #6.5 #50 #25 in
  r = [msg_ph_optimal; msg_moisture_good; msg_temp_favorable; msg_crop] /\
  (forall m, m ∈ advanced_tier ++ scientific_warnings -> m ∉ r).
Proof.
  cbv zeta. rewrite ruleEngine_by_tier. split; [reflexivity|].
  change (forall m, m ∈ advanced_tier ++ scientific_warnings ->
            m ∉ [msg_ph_optimal; msg_moisture_good; msg_temp_favorable; msg_crop]).
  apply Forall_forall. compute_done.
Qed.

End RuleEngineFacts.

(* ===================================================================== *)
(** ** The engine as a heap program *)
(* ===================================================================== *)

Section HeapFacts.
Import Heap.
Local Open Scope list_scope.
Local Open Scope heap_scope.

Lemma push_step {A} (l : loc) (s : string) (xs : list string)
    (h : gmap loc (list string)) (k : unit -> M A) :
  Heap.bind (array_push l s) k (<[l := xs]> h) = k tt (<[l := push s xs]> h).
Proof. unfold Heap.bind, array_push. by rewrite alter_insert_eq. Qed.

Lemma skip_step {A} (h : gmap loc (list string)) (k : unit -> M A) :
  Heap.bind skip k h = k tt h.
Proof. reflexivity. Qed.

(** What a conditional statement does to the array at [l]. *)
Lemma heap_push_3 {A} (c c' : bool) (a b d : string) (l : loc)
    (xs : list string) (h : gmap loc (list string)) (k : unit -> M A) :
  Heap.bind (if c then array_push l a
             else if c' then array_push l b else array_push l d) k
    (<[l := xs]> h)
  = k tt (<[l := xs ++ [if c then a else if c' then b else d]]> h).
Proof. destruct c, c'; apply push_step. Qed.

Lemma heap_push_2 {A} (c c' : bool) (a b : string) (l : loc)
    (xs : list string) (h : gmap loc (list string)) (k : unit -> M A) :
  Heap.bind (if c then array_push l a
             else if c' then array_push l b else skip) k
    (<[l := xs]> h)
  = k tt (<[l := xs ++ (if c then [a] else if c' then [b] else [])]> h).
Proof.
  destruct c, c'; rewrite ?push_step, ?skip_step, ?app_nil_r; reflexivity.
Qed.

Lemma heap_push_1 {A} (c : bool) (a : string) (l : loc)
    (xs : list string) (h : gmap loc (list string)) (k : unit -> M A) :
  Heap.bind (if c then array_push l a else skip) k (<[l := xs]> h)
  = k tt (<[l := xs ++ (if c then [a] else [])]> h).
Proof.
  destruct c; rewrite ?push_step, ?skip_step, ?app_nil_r; reflexivity.
Qed.

Lemma heap_push_guarded {A} (g c c' : bool) (a b d : string) (l : loc)
    (xs : list string) (h : gmap loc (list string)) (k : unit -> M A) :
  Heap.bind (if g then
               if c then array_push l a
               else if c' then array_push l b else array_push l d
             else skip) k
    (<[l := xs]> h)
  = k tt (<[l := xs ++ (if g then [if c then a else if c' then b else d]
                        else [])]> h).
Proof.
  destruct g; [apply heap_push_3|]. by rewrite skip_step, app_nil_r.
Qed.

(** The heap program allocates one array and leaves in it the list that
    [RuleEngine.ruleEngine] computes. *)
Lemma ruleEngine_heap_refines (ph moisture temperature : value)
    (h : gmap loc (list string)) :
  RuleEngineHeap.ruleEngine ph moisture temperature h
  = (fresh (dom h),
     <[fresh (dom h) := RuleEngine.ruleEngine ph moisture temperature]> h).
Proof.
  rewrite ruleEngine_by_tier.
  unfold RuleEngineHeap.ruleEngine.
  unfold Heap.bind at 1. unfold new_array.
  rewrite !heap_push_3, heap_push_guarded, !heap_push_2, !heap_push_1.
  unfold Heap.ret, Tiers.basic_temperature, Tiers.scientific.
  cbn [app]. by rewrite <- !app_assoc.
Qed.

Lemma ruleEngine_basic_heap_refines (ph moisture temperature : value)
    (h : gmap loc (list string)) :
  RuleEngineBasicHeap.ruleEngine ph moisture temperature h
  = (fresh (dom h),
     <[fresh (dom h) := RuleEngineBasic.ruleEngine ph moisture temperature]> h).
Proof.
  unfold RuleEngineBasicHeap.ruleEngine, RuleEngineBasic.ruleEngine.
  unfold Heap.bind at 1. unfold new_array.
  rewrite !heap_push_3, heap_push_guarded.
  cbv zeta. by rewrite !push_3, push_0.
Qed.

(** A call that only allocates its result is pure. *)
Lemma allocating_call_pure (call : M loc) (result : list string) :
  (forall h, call h = (fresh (dom h), <[fresh (dom h) := result]> h)) ->
  pure_call call result.
Proof.
  intros Hcall h. rewrite Hcall, Hcall.
  set (r1 := fresh (dom h)). set (h1 := <[r1 := result]> h).
  set (r2 := fresh (dom h1)).
  assert (Hr1 : h !! r1 = None) by apply not_elem_of_dom, is_fresh.
  assert (Hr2 : h1 !! r2 = None) by apply not_elem_of_dom, is_fresh.
  assert (Hne : r1 <> r2).
  { intros Heq. rewrite <- Heq in Hr2. unfold h1 in Hr2.
    by rewrite lookup_insert_eq in Hr2. }
  repeat split.
  - apply lookup_insert_eq.
  - apply lookup_insert_eq.
  - rewrite lookup_insert_ne by done. apply lookup_insert_eq.
  - done.
  - done.
  - intros l [x Hl].
    assert (l <> r1) by (intros ->; congruence).
    assert (l <> r2).
    { intros ->. unfold h1 in Hr2. rewrite lookup_insert_ne in Hr2 by done.
      congruence. }
    unfold h1. by rewrite !lookup_insert_ne.
Qed.

(** Two calls of [ruleEngine] with the same arguments return arrays with
    identical contents, the list the arguments determine; the arrays are
    distinct, newly allocated, and no array that existed before is
    changed, in either revision of the engine (claim C9). *)
Theorem ruleEngine_pure (ph moisture temperature : value) :
  pure_call (RuleEngineHeap.ruleEngine ph moisture temperature)
            (RuleEngine.ruleEngine ph moisture temperature) /\
  pure_call (RuleEngineBasicHeap.ruleEngine ph moisture temperature)
            (RuleEngineBasic.ruleEngine ph moisture temperature).
Proof.
  split; apply allocating_call_pure; intros h.
  - apply ruleEngine_heap_refines.
  - apply ruleEngine_basic_heap_refines.
Qed.

End HeapFacts.

(* ===================================================================== *)
(** ** The chat and the recommendation handler *)
(* ===================================================================== *)

Section HandlerFacts.
Import Net Commands.
Local Open Scope list_scope.

Lemma last_with_default (l : list ChatTurn) (d x : ChatTurn) :
  last l = Some x -> List.last l d = x.
Proof.
  induction l as [|a [|b l] IH]; intros H; [done| |].
  - by injection H.
  - rewrite last_cons_cons in H. by apply IH.
Qed.

Lemma last_default (m : ChatTurn) (ms : list ChatTurn) :
  last (m :: ms) = Some (List.last ms m).
Proof.
  destruct (last (m :: ms)) as [x|] eqn:H.
  - rewrite <- (last_with_default _ m _ H). by destruct ms.
  - by apply last_None in H.
Qed.

(** Unfolds the handlers down to the monad's operations. *)
Ltac unfold_handlers :=
  unfold Chat.askPerplexityChat, Chat.queryPerplexityAI, Chat.axios_post,
    Chat.call_getPreassignedCommand,
    Recommend.askPerplexityRecommend, Recommend.fetch_json,
    Recommend.optional_trim, Recommend.or_else,
    try_catch, Net.bind, Net.ret, Net.throw, console_error, post, answer_of,
    call_trim.

(** The query never throws: every failure inside it is caught there. *)
Lemma queryPerplexityAI_returns (service : request -> response)
    (p : string) (n : Z) (w : world) :
  exists a, fst (Chat.queryPerplexityAI service p n w) = Returned a.
Proof.
  unfold_handlers. cbn.
  destruct (service _) as [e|data]; cbn; [eauto|].
  destruct data; cbn; eauto.
  destruct (field "answer" fields) as [a|]; cbn; [|eauto].
  destruct (truthy a); cbn; eauto.
Qed.

(** When the service fails, the query returns the fallback string. *)
Lemma queryPerplexityAI_fallback (service : request -> response)
    (p : string) (n : Z) (w : world) :
  fails (service (Request "https://api.perplexity.ai/search" p n)) = true ->
  fst (Chat.queryPerplexityAI service p n w) = Returned (JStr "AI failed to respond").
Proof.
  unfold_handlers. cbn.
  destruct (service _) as [e|data]; cbn; [done|].
  destruct data; cbn; try done.
  by destruct (field "answer" fields).
Qed.


(** The query sends exactly one request, whatever comes back. *)
Lemma queryPerplexityAI_requests (service : request -> response)
    (p : string) (n : Z) (w : world) :
  requests (snd (Chat.queryPerplexityAI service p n w))
  = requests w ++ [Request "https://api.perplexity.ai/search" p n].
Proof.
  unfold_handlers. cbn.
  destruct (service _) as [e|data]; cbn; [done|].
  destruct data; cbn; try done.
  destruct (field "answer" fields) as [a|]; cbn; [|done].
  by destruct (truthy a).
Qed.

(** The handler on a non-empty [messages] whose last message misses the
    command table: the lookup is noted, the query is made with the prompt
    of the last five messages, and its reply is trimmed when it is a
    string. *)
Lemma askPerplexityChat_miss (service : request -> response)
    (m : ChatTurn) (ms : list ChatTurn) (w : world) :
  getPreassignedCommand (content (List.last ms m)) = None ->
  Chat.askPerplexityChat service (Some (m :: ms)) w
  = match Chat.queryPerplexityAI service
            (Chat.aiPrompt (Chat.last5Messages (m :: ms))) 100
            {| console := console w; requests := requests w;
               lookups := lookups w ++ [content (List.last ms m)] |} with
    | (Returned (JStr s), w') => (Returned (Text (trim s)), w')
    | (Returned _, w') =>
        (Returned (Text "AI failed to respond"),
         {| console := console w' ++ [("❌ askPerplexityChat error:", TypeError)];
            requests := requests w'; lookups := lookups w' |})
    | (Thrown e, w') =>
        (Returned (Text "AI failed to respond"),
         {| console := console w' ++ [("❌ askPerplexityChat error:", e)];
            requests := requests w'; lookups := lookups w' |})
    end.
Proof.
  intros Hmiss.
  unfold Chat.askPerplexityChat, Chat.call_getPreassignedCommand.
  unfold try_catch at 1. unfold Net.bind at 1. rewrite Hmiss.
  unfold Net.bind at 1.
  by destruct (Chat.queryPerplexityAI _ _ _ _) as [[[]|] w'].
Qed.

(** For every input on which the completion service is called and fails
    (the request rejects, the body is malformed, or the data has no
    [answer] field), [askPerplexityChat] returns exactly the string
    "AI failed to respond" and [askPerplexityRecommend] returns exactly
    "AI failed to provide a recommendation."; and on every input and for
    every behaviour of the service both handlers return: neither throws to
    its caller (claim C2). *)
Theorem failure_fallback :
  (forall (service : request -> response) (ms : list ChatTurn) (m : ChatTurn)
          (w : world),
     last ms = Some m -> getPreassignedCommand (content m) = None ->
     (forall req, fails (service req) = true) ->
     fst (Chat.askPerplexityChat service (Some ms) w)
     = Returned (Text "AI failed to respond")) /\
  (forall (service : request -> response) (show : number -> string)
          (params : Recommend.Params) (w : world),
     (forall req, fails (service req) = true) ->
     fst (Recommend.askPerplexityRecommend service show params w)
     = Returned "AI failed to provide a recommendation.") /\
  (forall (service : request -> response) (messages : option (list ChatTurn))
          (w : world),
     exists r, fst (Chat.askPerplexityChat service messages w) = Returned r) /\
  (forall (service : request -> response) (show : number -> string)
          (params : Recommend.Params) (w : world),
     exists s,
       fst (Recommend.askPerplexityRecommend service show params w)
       = Returned s).
Proof.
  repeat apply conj.
  - intros service ms m w Hlast Hmiss Hfail.
    destruct ms as [|m0 ms]; [done|].
    rewrite last_default in Hlast. injection Hlast as <-.
    rewrite (askPerplexityChat_miss _ _ _ _ Hmiss).
    pose proof (queryPerplexityAI_fallback service
                  (Chat.aiPrompt (Chat.last5Messages (m0 :: ms))) 100
                  {| console := console w; requests := requests w;
                     lookups := lookups w ++ [content (List.last ms m0)] |}
                  (Hfail _)) as Hq.
    destruct (Chat.queryPerplexityAI _ _ _ _) as [r w']. cbn in Hq. by subst r.
  - intros service show params w Hfail.
    unfold_handlers.
    match goal with
    | |- context [service ?r] =>
        specialize (Hfail r); destruct (service r) as [e|data]
    end; [done|].
    destruct data; try done. cbn in Hfail |- *.
    by destruct (field "answer" fields).
  - intros service [[|m ms]|] w; try (by eexists).
    destruct (getPreassignedCommand (content (List.last ms m))) as [c|] eqn:Hc.
    + unfold Chat.askPerplexityChat, Chat.call_getPreassignedCommand,
        try_catch, Net.bind. rewrite Hc. by eexists.
    + rewrite (askPerplexityChat_miss _ _ _ _ Hc).
      destruct (Chat.queryPerplexityAI _ _ _ _) as [[[]|] w']; by eexists.
  - intros service show params w. unfold_handlers.
    match goal with
    | |- context [service ?r] => destruct (service r) as [e|data]
    end; [by eexists|].
    destruct data; try (by eexists). cbn.
    destruct (field "answer" fields) as [[]|]; by eexists.
Qed.


Lemma failure_fallback_witness :
  fst (Chat.askPerplexityChat Examples.unreachable
         (Some (conversation Examples.history8 Examples.question))
         Examples.empty_world)
  = Returned (Text "AI failed to respond") /\
  fst (Recommend.askPerplexityRecommend Examples.no_answer
         Examples.show_number Examples.reading Examples.empty_world)
  = Returned "AI failed to provide a recommendation.".
Proof.
  destruct failure_fallback as (Hchat & Hrecommend & _).
  split.
  - apply (Hchat Examples.unreachable _ (Turn "user" Examples.question));
      reflexivity.
  - apply Hrecommend. reflexivity.
Defined.

(** When [messages] is missing or empty, [askPerplexityChat] returns
    "No messages provided" and leaves the world as it was: no lookup in
    the command table, no request to the completion service, nothing on
    the console (claim C10). *)
Theorem no_messages_provided (service : request -> response) (w : world) :
  Chat.askPerplexityChat service None w
  = (Returned (Text "No messages provided"), w) /\
  Chat.askPerplexityChat service (Some []) w
  = (Returned (Text "No messages provided"), w).
Proof. split; reflexivity. Qed.

(** For every message whose trimmed, lower-cased form is "help",
    [askPerplexityChat] returns the canned help string of the command
    table, and sends no request to the completion service (claim C6). *)
Theorem help_command (service : request -> response) (ms : list ChatTurn)
    (m : ChatTurn) (w : world) :
  last ms = Some m ->
  toLowerCase (trim (content m)) = "help" ->
  let (r, w') := Chat.askPerplexityChat service (Some ms) w in
  r = Returned (Text "You can ask me about soil health, crop recommendations, pest management, and general agriculture advice.") /\
  commands !! "help" = Some "You can ask me about soil health, crop recommendations, pest management, and general agriculture advice." /\
  requests w' = requests w /\ console w' = console w.
Proof.
  intros Hlast Hhelp.
  destruct ms as [|m0 ms]; [done|].
  rewrite last_default in Hlast. injection Hlast as <-.
  unfold Chat.askPerplexityChat, Chat.call_getPreassignedCommand, try_catch,
    Net.bind, getPreassignedCommand.
  rewrite Hhelp. by vm_compute.
Qed.

Lemma help_command_witness :
  let (r, w') :=
    Chat.askPerplexityChat Examples.unreachable
      (Some (conversation Examples.history8 ("  HeLP " +:+ LF)))
      Examples.empty_world in
  r = Returned (Text "You can ask me about soil health, crop recommendations, pest management, and general agriculture advice.") /\
  commands !! "help" = Some "You can ask me about soil health, crop recommendations, pest management, and general agriculture advice." /\
  requests w' = [] /\ console w' = [].
Proof.
  apply (help_command Examples.unreachable
           (conversation Examples.history8 ("  HeLP " +:+ LF))
           (Turn "user" ("  HeLP " +:+ LF)) Examples.empty_world);
    reflexivity.
Defined.

(** *** The history in the prompt *)

(** The last five of [messages] are the last four prior turns and the new
    message. *)
Lemma slice_last_conversation (history : list ChatTurn) (newMessage : string) :
  slice_last 5 (conversation history newMessage)
  = slice_last 4 history ++ [Turn "user" newMessage].
Proof.
  unfold slice_last, conversation. rewrite length_app. cbn [length].
  replace (length history + 1 - 5)%nat with (length history - 4)%nat by lia.
  rewrite drop_app_le by lia. reflexivity.
Qed.

(** A conversation is never empty and ends with the new message. *)
Lemma last_conversation (history : list ChatTurn) (newMessage : string) :
  last (conversation history newMessage) = Some (Turn "user" newMessage).
Proof. apply last_snoc. Qed.

(** The requests of the handler on a conversation whose new message
    misses the command table. *)
Lemma askPerplexityChat_requests (service : request -> response)
    (history : list ChatTurn) (newMessage : string) (w : world) :
  getPreassignedCommand newMessage = None ->
  requests (snd (Chat.askPerplexityChat service
                   (Some (conversation history newMessage)) w))
  = requests w
    ++ [chat_request
          (prompt_with_turns (slice_last 4 history ++ [Turn "user" newMessage]))].
Proof.
  intros Hmiss.
  pose proof (last_conversation history newMessage) as Hlast.
  pose proof (slice_last_conversation history newMessage) as Hslice.
  destruct (conversation history newMessage) as [|m ms] eqn:Hc; [done|].
  rewrite last_default in Hlast. injection Hlast as Hlast.
  rewrite askPerplexityChat_miss by (by rewrite Hlast).
  unfold prompt_with_turns, chat_request. rewrite <- Hslice.
  match goal with
  | |- context [Chat.queryPerplexityAI ?s ?p ?n ?w0] =>
      pose proof (queryPerplexityAI_requests s p n w0) as Hq;
      destruct (Chat.queryPerplexityAI s p n w0) as [[[]|] w']
  end; exact Hq.
Qed.

(** The claim C4 as stated fails: with eight prior turns the request
    carries a prompt other than the one with the five most recent prior
    turns and the new message; the fifth most recent turn ("turn 4") is
    not in it, while the fourth most recent ("turn 5") is. *)
Lemma prompt_omits_fifth_prior_turn :
  length Examples.history8 = 8%nat /\
  getPreassignedCommand Examples.question = None /\
  exists sent,
    requests (snd (Chat.askPerplexityChat Examples.answering
                     (Some (conversation Examples.history8 Examples.question))
                     Examples.empty_world)) = [sent] /\
    sent <> chat_request
              (prompt_with_turns
                 (slice_last 5 Examples.history8
                  ++ [Turn "user" Examples.question])) /\
    includes (prompt sent) "AI: turn 4" = false /\
    includes (prompt sent) "User: turn 5" = true.
Proof.
  split; [reflexivity|]. split; [reflexivity|].
  eexists. split; [by vm_compute|].
  split; [|split]; [|by vm_compute..].
  intros Heq. apply (f_equal (fun r => includes (prompt r) "AI: turn 4")) in Heq.
  vm_compute in Heq. discriminate.
Qed.

(** For every history of eight prior turns and every new user message
    that misses the command table, [askPerplexityChat] sends one request,
    whose prompt carries the last five entries of [messages]: the four
    most recent prior turns in their original order, followed by the new
    message as the final user turn (claim C4, amended). *)
Theorem prompt_carries_last_five_messages (service : request -> response)
    (history : list ChatTurn) (newMessage : string) (w : world) :
  length history = 8%nat ->
  getPreassignedCommand newMessage = None ->
  requests (snd (Chat.askPerplexityChat service
                   (Some (conversation history newMessage)) w))
  = requests w
    ++ [chat_request
          (prompt_with_turns (drop 4 history ++ [Turn "user" newMessage]))].
Proof.
  intros Hlen Hmiss. rewrite askPerplexityChat_requests by done.
  unfold slice_last. by rewrite Hlen.
Qed.

Lemma prompt_carries_last_five_messages_witness :
  requests (snd (Chat.askPerplexityChat Examples.answering
                   (Some (conversation Examples.history8 Examples.question))
                   Examples.empty_world))
  = [chat_request
       (prompt_with_turns
          [ Turn "user" "turn 5"; Turn "assistant" "turn 6";
            Turn "user" "turn 7"; Turn "assistant" "turn 8";
            Turn "user" Examples.question ])].
Proof.
  apply (prompt_carries_last_five_messages Examples.answering
           Examples.history8 Examples.question Examples.empty_world);
    reflexivity.
Defined.

(** The [/chat] route selects the first five rows in ascending order of
    timestamp: of eight stored turns the handler is given the five oldest
    and the new message. *)
Lemma chat_route_messages :
  Server.messagesForAI Examples.rows8 Examples.question
  = conversation (take 5 Examples.history8) Examples.question.
Proof. reflexivity. Qed.

End HandlerFacts.

(* ===================================================================== *)
(** ** More on the progressive rule engine *)
(* ===================================================================== *)

Section RuleEngineMore.
Import RuleEngine Tiers.
Local Open Scope list_scope.
Local Open Scope js_scope.

(** Below [a] excludes above [b] when [a <= b]. *)
Lemma lt_excludes_gt (v : value) (a b : Q) :
  (a <= b)%Q -> (v <? #a) = true -> (v >? #b) = false.
Proof.
  intros Hab Hlt. destruct (v >? #b) eqn:Hgt; [|done].
  by rewrite (gt_excludes_lt v a b Hab Hgt) in Hlt.
Qed.

(** Below [a] is below [b] when [a <= b]; above [b] is above [a]. *)
Lemma lt_weaken (v : value) (a b : Q) :
  (a <= b)%Q -> (v <? #a) = true -> (v <? #b) = true.
Proof.
  unfold lt, num; cbn. intros Hab.
  destruct (ToNumber v) as [| | |q]; cbn; try done.
  intros H%Qltb_lt. apply Qltb_lt. lra.
Qed.

Lemma gt_weaken (v : value) (a b : Q) :
  (a <= b)%Q -> (v >? #b) = true -> (v >? #a) = true.
Proof.
  unfold gt, num; cbn. intros Hab.
  destruct (ToNumber v) as [| | |q]; cbn; try done.
  intros H%Qltb_lt. apply Qltb_lt. lra.
Qed.

(** [v >= a] and [v < a] exclude each other, and so do [v <= b] and
    [v > b]. *)
Lemma ge_excludes_lt (v : value) (a : Q) :
  (v >=? #a) = true -> (v <? #a) = false.
Proof.
  unfold ge, lt, number_le, num; cbn.
  destruct (ToNumber v) as [| | |q]; cbn; try done.
  by intros ->%negb_true_iff.
Qed.

Lemma le_excludes_gt (v : value) (b : Q) :
  (v <=? #b) = true -> (v >? #b) = false.
Proof.
  unfold le, gt, number_le, num; cbn.
  destruct (ToNumber v) as [| | |q]; cbn; try done.
  by intros ->%negb_true_iff.
Qed.

(** A comparison that holds has a defined left operand. *)
Lemma lt_defined (v w : value) : (v <? w) = true -> is_defined v = true.
Proof. by destruct v. Qed.

Lemma gt_defined (v w : value) : (v >? w) = true -> is_defined v = true.
Proof.
  destruct v; try done. unfold gt; cbn. by destruct (ToNumber w).
Qed.


(** *** When each message is in the result *)

(** From [m ∈ ruleEngine ...] for a given message [m] to the branch that
    appended it: the other branches append other messages. *)
Ltac appended_by H :=
  apply elem_of_ruleEngine in H;
  unfold basic_ph, basic_moisture, basic_temperature, advanced_ph,
    advanced_moisture, advanced_temperature, scientific in H;
  destruct H as [H|[H|[H|[H|[H|[H|H]]]]]];
  repeat case_match;
  try discriminate H;
  try (exfalso; revert H; compute_done).

(** Goes to the branch of the given number in [m ∈ ruleEngine ...]. *)
Tactic Notation "branch" integer(n) :=
  apply elem_of_ruleEngine;
  unfold basic_ph, basic_moisture, basic_temperature, advanced_ph,
    advanced_moisture, advanced_temperature, scientific;
  do n right; try left.

Section Membership.
Context (ph moisture temperature : value).
Let r := ruleEngine ph moisture temperature.

Lemma in_acidic : msg_acidic ∈ r <-> (ph <? #6) = true.
Proof.
  split; [intros H; appended_by H; done|].
  intros Hc. branch 0.
  rewrite Hc. reflexivity.
Qed.

Lemma in_alkaline : msg_alkaline ∈ r <-> (ph >? #8) = true.
Proof.
  split; [intros H; appended_by H; done|].
  intros Hc. branch 0.
  rewrite (gt_excludes_lt ph 6 8), Hc by done. reflexivity.
Qed.

Lemma in_very_acidic : msg_very_acidic ∈ r <-> (ph <? #5.5) = true.
Proof.
  split; [intros H; appended_by H; done|].
  intros Hc. branch 3.
  rewrite Hc. by constructor.
Qed.

Lemma in_strongly_alkaline :
  msg_strongly_alkaline ∈ r <-> (ph >? #8.5) = true.
Proof.
  split; [intros H; appended_by H; done|].
  intros Hc. branch 3.
  rewrite (gt_excludes_lt ph 5.5 8.5), Hc by done. by constructor.
Qed.

Lemma in_ph_optimal :
  msg_ph_optimal ∈ r <-> (ph <? #6) = false /\ (ph >? #8) = false.
Proof.
  split; [intros H; appended_by H; done|].
  intros [Hlt Hgt]. branch 0.
  rewrite Hlt, Hgt. reflexivity.
Qed.

Lemma in_dry : msg_dry ∈ r <-> (moisture <? #30) = true.
Proof.
  split; [intros H; appended_by H; done|].
  intros Hc. branch 1.
  rewrite Hc. reflexivity.
Qed.

Lemma in_waterlogged : msg_waterlogged ∈ r <-> (moisture >? #70) = true.
Proof.
  split; [intros H; appended_by H; done|].
  intros Hc. branch 1.
  rewrite (gt_excludes_lt moisture 30 70), Hc by done. reflexivity.
Qed.

Lemma in_moisture_good :
  msg_moisture_good ∈ r <->
  (moisture <? #30) = false /\ (moisture >? #70) = false.
Proof.
  split; [intros H; appended_by H; done|].
  intros [Hlt Hgt]. branch 1.
  rewrite Hlt, Hgt. reflexivity.
Qed.

Lemma in_extremely_dry : msg_extremely_dry ∈ r <-> (moisture <? #20) = true.
Proof.
  split; [intros H; appended_by H; done|].
  intros Hc. branch 4.
  rewrite Hc. by constructor.
Qed.

Lemma in_root_rot : msg_root_rot ∈ r <-> (moisture >? #80) = true.
Proof.
  split; [intros H; appended_by H; done|].
  intros Hc. branch 4.
  rewrite (gt_excludes_lt moisture 20 80), Hc by done. by constructor.
Qed.

Lemma in_temp_low : msg_temp_low ∈ r <-> (temperature <? #15) = true.
Proof.
  split; [intros H; appended_by H; done|].
  intros Hc. branch 2.
  rewrite (lt_defined _ _ Hc), Hc. by constructor.
Qed.

Lemma in_temp_high : msg_temp_high ∈ r <-> (temperature >? #35) = true.
Proof.
  split; [intros H; appended_by H; done|].
  intros Hc. branch 2.
  rewrite (gt_defined _ _ Hc), (gt_excludes_lt temperature 15 35), Hc by done. by constructor.
Qed.

Lemma in_temp_favorable :
  msg_temp_favorable ∈ r <->
  is_defined temperature = true /\
  (temperature <? #15) = false /\ (temperature >? #35) = false.
Proof.
  split; [intros H; appended_by H; done|].
  intros (Hd & Hlt & Hgt). branch 2.
  rewrite Hd, Hlt, Hgt. by constructor.
Qed.

Lemma in_severe_cold : msg_severe_cold ∈ r <-> (temperature <? #10) = true.
Proof.
  split; [intros H; appended_by H; done|].
  intros Hc. branch 5.
  rewrite Hc. by constructor.
Qed.

Lemma in_heat_stress : msg_heat_stress ∈ r <-> (temperature >? #40) = true.
Proof.
  split; [intros H; appended_by H; done|].
  intros Hc. branch 5.
  rewrite (gt_excludes_lt temperature 10 40), Hc by done. by constructor.
Qed.

Lemma in_nutrient :
  msg_nutrient ∈ r <-> (ph <? #6) || (ph >? #8) = true.
Proof.
  split; [intros H; appended_by H; done|].
  intros Hc. branch 6. rewrite !elem_of_app. left.
  rewrite Hc. by constructor.
Qed.

Lemma in_pest :
  msg_pest ∈ r <->
  ((moisture >? #70) && (temperature >? #30)) || (temperature >? #35) = true.
Proof.
  split; [intros H; appended_by H; done|].
  intros Hc. branch 6. rewrite !elem_of_app. right; left.
  rewrite Hc. by constructor.
Qed.

Lemma in_crop :
  msg_crop ∈ r <->
  (ph >=? #6) && (ph <=? #7.5) && (moisture >=? #30) && (moisture <=? #70)
  = true.
Proof.
  split; [intros H; appended_by H; done|].
  intros Hc. branch 6. rewrite !elem_of_app. right; right.
  rewrite Hc. by constructor.
Qed.

End Membership.

(** *** How the messages go together *)

(** Every advanced message comes with the basic message of the same
    reading: very acidic with acidic, strongly alkaline with alkaline,
    extremely dry with dry, root rot with wet, severe cold with low
    temperature, and heat stress with high temperature. *)
Theorem advanced_with_basic (ph moisture temperature : value) :
  let r := ruleEngine ph moisture temperature in
  (msg_very_acidic ∈ r -> msg_acidic ∈ r) /\
  (msg_strongly_alkaline ∈ r -> msg_alkaline ∈ r) /\
  (msg_extremely_dry ∈ r -> msg_dry ∈ r) /\
  (msg_root_rot ∈ r -> msg_waterlogged ∈ r) /\
  (msg_severe_cold ∈ r -> msg_temp_low ∈ r) /\
  (msg_heat_stress ∈ r -> msg_temp_high ∈ r).
Proof.
  cbv zeta.
  rewrite in_very_acidic, in_acidic, in_strongly_alkaline, in_alkaline,
    in_extremely_dry, in_dry, in_root_rot, in_waterlogged, in_severe_cold,
    in_temp_low, in_heat_stress, in_temp_high.
  repeat apply conj.
  - by apply lt_weaken.
  - by apply gt_weaken.
  - by apply lt_weaken.
  - by apply gt_weaken.
  - by apply lt_weaken.
  - by apply gt_weaken.
Qed.

(** The crop-suitability message comes only with the optimal-pH and the
    healthy-moisture message, and never with the nutrient warning or an
    advanced message about pH or moisture. *)
Theorem crop_message_excludes_warnings (ph moisture temperature : value) :
  let r := ruleEngine ph moisture temperature in
  msg_crop ∈ r ->
  msg_ph_optimal ∈ r /\ msg_moisture_good ∈ r /\
  (forall m, m ∈ [msg_nutrient; msg_very_acidic; msg_strongly_alkaline;
                  msg_extremely_dry; msg_root_rot] -> m ∉ r).
Proof.
  cbv zeta. rewrite in_crop, in_ph_optimal, in_moisture_good.
  intros (((Hph6 & Hph75)%andb_prop & Hm30)%andb_prop & Hm70)%andb_prop.
  apply ge_excludes_lt in Hph6, Hm30.
  apply le_excludes_gt in Hph75, Hm70.
  assert (Hph8 : (ph >? #8) = false).
  { apply not_true_is_false. intros H%(gt_weaken ph 7.5 8); [congruence|done]. }
  repeat split; try done.
  intros m Hm. repeat (apply elem_of_cons in Hm as [->|Hm]).
  - rewrite in_nutrient, Hph6, Hph8. done.
  - rewrite in_very_acidic. intros H%(lt_weaken ph 5.5 6); [congruence|done].
  - rewrite in_strongly_alkaline.
    intros H%(gt_weaken ph 8 8.5); [congruence|done].
  - rewrite in_extremely_dry.
    intros H%(lt_weaken moisture 20 30); [congruence|done].
  - rewrite in_root_rot.
    intros H%(gt_weaken moisture 70 80); [congruence|done].
  - by apply not_elem_of_nil in Hm.
Qed.

Lemma crop_message_excludes_warnings_witness :
  msg_ph_optimal ∈ ruleEngine #6.5 #50 #25 /\
  msg_moisture_good ∈ ruleEngine #6.5 #50 #25 /\
  (forall m, m ∈ [msg_nutrient; msg_very_acidic; msg_strongly_alkaline;
                  msg_extremely_dry; msg_root_rot] ->
             m ∉ ruleEngine #6.5 #50 #25).
Proof.
  apply (crop_message_excludes_warnings #6.5 #50 #25).
  apply in_crop. reflexivity.
Defined.

(** A high temperature always brings the pest and disease warning, and
    that warning is never given without a temperature. *)
Theorem pest_warning_and_temperature (ph moisture temperature : value) :
  let r := ruleEngine ph moisture temperature in
  (msg_temp_high ∈ r -> msg_pest ∈ r) /\
  (msg_heat_stress ∈ r -> msg_pest ∈ r) /\
  (msg_pest ∈ r -> temperature <> VUndefined).
Proof.
  cbv zeta. rewrite in_temp_high, in_heat_stress, in_pest.
  repeat apply conj.
  - intros ->. apply orb_true_r.
  - intros H%(gt_weaken temperature 35 40); [|done].
    rewrite H. apply orb_true_r.
  - intros H ->.
    change (VUndefined >? #30) with false in H.
    change (VUndefined >? #35) with false in H.
    by rewrite andb_false_r in H.
Qed.


(** *** Readings that are not numbers *)

Lemma nan_compares_false (v : value) (q : Q) :
  ToNumber v = NaN ->
  (v <? #q) = false /\ (v >? #q) = false /\
  (v <=? #q) = false /\ (v >=? #q) = false.
Proof. unfold lt, gt, le, ge. by intros ->. Qed.

(** A pH that converts to NaN (a missing field, a text that is no
    number) is reported as good: the engine returns the optimal-pH
    message first, and no other message about pH, neither the nutrient
    warning nor the crop message.  Likewise a moisture that converts to
    NaN is reported as healthy. *)
Theorem nan_reading_reported_optimal (ph moisture temperature : value) :
  let r := ruleEngine ph moisture temperature in
  (ToNumber ph = NaN ->
   r !! 0%nat = Some msg_ph_optimal /\
   (forall m, m ∈ [msg_acidic; msg_alkaline; msg_very_acidic;
                   msg_strongly_alkaline; msg_nutrient; msg_crop] -> m ∉ r)) /\
  (ToNumber moisture = NaN ->
   r !! 1%nat = Some msg_moisture_good /\
   (forall m, m ∈ [msg_dry; msg_waterlogged; msg_extremely_dry;
                   msg_root_rot; msg_crop] -> m ∉ r)).
Proof.
  cbv zeta. split; intros Hnan.
  - pose proof (fun q => nan_compares_false ph q Hnan) as Hcmp.
    split.
    + rewrite ruleEngine_first. unfold basic_ph.
      by rewrite (proj1 (Hcmp 6%Q)), (proj1 (proj2 (Hcmp 8%Q))).
    + intros m Hm. repeat (apply elem_of_cons in Hm as [->|Hm]);
        [ rewrite in_acidic | rewrite in_alkaline | rewrite in_very_acidic
        | rewrite in_strongly_alkaline | rewrite in_nutrient | rewrite in_crop
        | by apply not_elem_of_nil in Hm ];
        rewrite ?(proj1 (Hcmp _)), ?(proj1 (proj2 (Hcmp _))),
          ?(proj2 (proj2 (proj2 (Hcmp _)))); done.
  - pose proof (fun q => nan_compares_false moisture q Hnan) as Hcmp.
    split.
    + rewrite ruleEngine_second. unfold basic_moisture.
      by rewrite (proj1 (Hcmp 30%Q)), (proj1 (proj2 (Hcmp 70%Q))).
    + intros m Hm. repeat (apply elem_of_cons in Hm as [->|Hm]);
        [ rewrite in_dry | rewrite in_waterlogged | rewrite in_extremely_dry
        | rewrite in_root_rot | rewrite in_crop
        | by apply not_elem_of_nil in Hm ];
        rewrite ?(proj1 (Hcmp _)), ?(proj1 (proj2 (Hcmp _))),
          ?(proj2 (proj2 (proj2 (Hcmp _)))), ?andb_false_r; done.
Qed.

Lemma nan_reading_reported_optimal_witness :
  ruleEngine (VOther NaN true "acidic") #50 #25 !! 0%nat = Some msg_ph_optimal /\
  ruleEngine #6.5 (VNum NaN) #25 !! 1%nat = Some msg_moisture_good.
Proof.
  split.
  - apply (proj1 (nan_reading_reported_optimal
                    (VOther NaN true "acidic") #50 #25)). reflexivity.
  - apply (proj2 (nan_reading_reported_optimal #6.5 (VNum NaN) #25)).
    reflexivity.
Defined.

(** *** The size and the order of the result *)

Lemma nutrient_or_crop (ph moisture : value) :
  ((ph <? #6) || (ph >? #8))
  && ((ph >=? #6) && (ph <=? #7.5) && (moisture >=? #30) && (moisture <=? #70))
  = false.
Proof.
  apply not_true_is_false.
  intros [Hn (((H6 & H75)%andb_prop & _)%andb_prop & _)%andb_prop]%andb_prop.
  apply ge_excludes_lt in H6. apply le_excludes_gt in H75.
  apply orb_prop in Hn as [Hn|Hn]; [congruence|].
  apply (gt_weaken ph 7.5 8) in Hn; [congruence|done].
Qed.

Lemma increasing_NoDup (l : list nat) : StronglySorted Nat.lt l -> NoDup l.
Proof.
  induction 1 as [|x l Hs IH Hx]; constructor; [|done].
  intros Hin. rewrite Forall_forall in Hx. specialize (Hx x Hin). lia.
Qed.

(** The ranks of the result: 1 and 2, then each later rank when its
    statement appended a message. *)
Lemma ranks_of_ruleEngine (ph moisture temperature : value) :
  map rank (ruleEngine ph moisture temperature)
  = 1%nat :: 2%nat ::
      when (is_defined temperature) 3
      ++ (when ((ph <? #5.5) || (ph >? #8.5)) 4
          ++ when ((moisture <? #20) || (moisture >? #80)) 5
          ++ when ((temperature <? #10) || (temperature >? #40)) 6)
      ++ when ((ph <? #6) || (ph >? #8)) 7
      ++ when (((moisture >? #70) && (temperature >? #30))
               || (temperature >? #35)) 8
      ++ when ((ph >=? #6) && (ph <=? #7.5) && (moisture >=? #30)
               && (moisture <=? #70)) 9.
Proof.
  rewrite ruleEngine_by_tier. cbn [map]. rewrite !map_app.
  f_equal; [|f_equal; [|repeat f_equal]].
  - unfold basic_ph. by repeat case_match.
  - unfold basic_moisture. by repeat case_match.
  - unfold basic_temperature. by repeat case_match.
  - unfold advanced_ph. by repeat case_match.
  - unfold advanced_moisture. by repeat case_match.
  - unfold advanced_temperature. by repeat case_match.
  - unfold scientific. rewrite !map_app. repeat f_equal; by case_match.
Qed.

(** The result holds between two and eight messages, at most five when
    there is no temperature; they come in the order of the statements of
    the engine, each at most once. *)
Theorem ruleEngine_size_and_order (ph moisture temperature : value) :
  let r := ruleEngine ph moisture temperature in
  (2 <= length r <= 8)%nat /\
  (temperature = VUndefined -> (length r <= 5)%nat) /\
  StronglySorted Nat.lt (map rank r) /\
  NoDup r.
Proof.
  cbv zeta.
  pose proof (ranks_of_ruleEngine ph moisture temperature) as Hranks.
  pose proof (nutrient_or_crop ph moisture) as Hexcl.
  assert (Hlen : length (ruleEngine ph moisture temperature)
                 = length (map rank (ruleEngine ph moisture temperature)))
    by (by rewrite length_map).
  assert (Hundef : temperature = VUndefined ->
            is_defined temperature = false /\
            (temperature <? #10) || (temperature >? #40) = false /\
            ((moisture >? #70) && (temperature >? #30))
            || (temperature >? #35) = false).
  { intros ->. repeat split. cbn. by rewrite andb_false_r. }
  assert (Hsorted : StronglySorted Nat.lt
                      (map rank (ruleEngine ph moisture temperature)) /\
                    (2 <= length (map rank (ruleEngine ph moisture temperature))
                     <= 8)%nat /\
                    (temperature = VUndefined ->
                     length (map rank (ruleEngine ph moisture temperature))
                     <= 5)%nat).
  { rewrite Hranks. clear Hranks Hlen.
    destruct (is_defined temperature), ((ph <? #5.5) || (ph >? #8.5)),
      ((moisture <? #20) || (moisture >? #80)),
      ((temperature <? #10) || (temperature >? #40)),
      ((ph <? #6) || (ph >? #8)),
      (((moisture >? #70) && (temperature >? #30)) || (temperature >? #35)),
      ((ph >=? #6) && (ph <=? #7.5) && (moisture >=? #30)
       && (moisture <=? #70));
      try discriminate Hexcl;
      (split; [repeat constructor; lia|]);
      (split; [cbn; lia|]);
      intros Hu; destruct (Hundef Hu) as (? & ? & ?); try discriminate;
      cbn; lia. }
  destruct Hsorted as (Hs & Hb & Hu). rewrite <- Hlen in Hb, Hu.
  repeat split; try done; try lia.
  by apply (NoDup_fmap_1 rank), increasing_NoDup.
Qed.

End RuleEngineMore.

(* ===================================================================== *)
(** ** The three-check revision of the engine *)
(* ===================================================================== *)

Section RuleEngineBasicFacts.
Import Tiers.
Local Open Scope list_scope.
Local Open Scope js_scope.

(** A truthy value is defined. *)
Lemma truthy_defined (v : value) : ToBoolean v = true -> is_defined v = true.
Proof. by destruct v. Qed.

(** The three-check engine returns the pH and the moisture message, and
    one message of the temperature tier exactly when [temperature] is
    truthy: the tier is left out for a missing temperature and also for
    0, NaN, [null], [false] and the empty text. *)
Theorem basic_engine_temperature_when_truthy (ph moisture temperature : value) :
  let r := RuleEngineBasic.ruleEngine ph moisture temperature in
  length r = (if ToBoolean temperature then 3 else 2)%nat /\
  count_tier RuleEngineBasic.temperature_tier r
  = (if ToBoolean temperature then 1 else 0)%nat /\
  count_tier BasicTiers.ph_tier r = 1%nat /\
  count_tier BasicTiers.moisture_tier r = 1%nat.
Proof.
  unfold RuleEngineBasic.ruleEngine. cbv zeta.
  destruct (ph <? #6), (ph >? #8), (moisture <? #30), (moisture >? #70),
    (ToBoolean temperature), (temperature <? #15), (temperature >? #35);
    by vm_compute.
Qed.

(** The progressive revision makes the three basic checks of the
    three-check revision: for every reading both take the same branch for
    pH and for moisture, and for a truthy temperature the same branch for
    temperature; only the wording of the messages differs. *)
Theorem revisions_take_same_basic_branch (ph moisture temperature : value) :
  let old := RuleEngineBasic.ruleEngine ph moisture temperature in
  let new := RuleEngine.ruleEngine ph moisture temperature in
  (exists i, (i < 3)%nat /\ old !! 0%nat = BasicTiers.ph_tier !! i /\
             new !! 0%nat = RuleEngine.ph_tier !! i) /\
  (exists j, (j < 3)%nat /\ old !! 1%nat = BasicTiers.moisture_tier !! j /\
             new !! 1%nat = RuleEngine.moisture_tier !! j) /\
  (ToBoolean temperature = true ->
   exists k, (k < 3)%nat /\
             old !! 2%nat = RuleEngineBasic.temperature_tier !! k /\
             new !! 2%nat = RuleEngine.temperature_tier !! k).
Proof.
  cbv zeta. rewrite ruleEngine_first, ruleEngine_second.
  repeat apply conj.
  - exists (if ph <? #6 then 0%nat else if ph >? #8 then 1%nat else 2%nat).
    unfold RuleEngineBasic.ruleEngine, basic_ph. cbv zeta.
    destruct (ph <? #6), (ph >? #8); (split; [lia|]);
      repeat case_match; done.
  - exists (if moisture <? #30 then 0%nat
            else if moisture >? #70 then 1%nat else 2%nat).
    unfold RuleEngineBasic.ruleEngine, basic_moisture. cbv zeta.
    destruct (moisture <? #30), (moisture >? #70); (split; [lia|]);
      repeat case_match; done.
  - intros Htruthy.
    exists (if temperature <? #15 then 0%nat
            else if temperature >? #35 then 1%nat else 2%nat).
    rewrite ruleEngine_by_tier. unfold basic_temperature.
    rewrite (truthy_defined _ Htruthy).
    unfold RuleEngineBasic.ruleEngine. cbv zeta. rewrite Htruthy.
    destruct (temperature <? #15), (temperature >? #35); (split; [lia|]);
      repeat case_match; done.
Qed.

End RuleEngineBasicFacts.

(* ===================================================================== *)
(** ** The command table *)
(* ===================================================================== *)

Section CommandFacts.
Import Net Commands.
Local Open Scope list_scope.
Local Arguments is_whitespace : simpl never.
Local Arguments lower : simpl never.

(** The lower-case mapping keeps white space apart from the rest, and
    maps its own results to themselves. *)
Lemma is_whitespace_lower (c : ascii) :
  is_whitespace (lower c) = is_whitespace c.
Proof. by destruct c as [[] [] [] [] [] [] [] []]. Qed.

Lemma lower_lower (c : ascii) : lower (lower c) = lower c.
Proof. by destruct c as [[] [] [] [] [] [] [] []]. Qed.

Lemma toLowerCase_idempotent (s : string) :
  toLowerCase (toLowerCase s) = toLowerCase s.
Proof. induction s as [|c s IH]; simpl; [done|]. by rewrite lower_lower, IH. Qed.

Lemma toLowerCase_trimStart (s : string) :
  toLowerCase (trimStart s) = trimStart (toLowerCase s).
Proof.
  induction s as [|c s IH]; simpl; [done|].
  rewrite is_whitespace_lower. by destruct (is_whitespace c).
Qed.

Lemma toLowerCase_trimEnd (s : string) :
  toLowerCase (trimEnd s) = trimEnd (toLowerCase s).
Proof.
  induction s as [|c s IH]; simpl; [done|].
  rewrite <- IH, is_whitespace_lower.
  destruct (trimEnd s); simpl; [|done]. by destruct (is_whitespace c).
Qed.

Lemma toLowerCase_trim (s : string) :
  toLowerCase (trim s) = trim (toLowerCase s).
Proof. unfold trim. by rewrite toLowerCase_trimEnd, toLowerCase_trimStart. Qed.

Lemma trimStart_whitespace (s : string) :
  all_whitespace s = true -> trimStart s = "".
Proof.
  induction s as [|c s IH]; simpl; [done|].
  intros [Hc Hs]%andb_prop. rewrite Hc. by apply IH.
Qed.

(** White space after a string is cut by [trim]. *)
Lemma trimEnd_trimStart_padding (s post : string) :
  all_whitespace post = true ->
  trimEnd (trimStart (s +:+ post)) = trimEnd (trimStart s).
Proof.
  intros Hpost. induction s as [|c s IH]; simpl.
  - by rewrite trimStart_whitespace.
  - destruct (is_whitespace c); [done|].
    change (String c (s +:+ post)) with (String c s +:+ post).
    by apply trimEnd_padding.
Qed.

Lemma trim_padding (pre s post : string) :
  all_whitespace pre = true -> all_whitespace post = true ->
  trim (pre +:+ s +:+ post) = trim s.
Proof.
  intros Hpre Hpost. unfold trim.
  by rewrite trimStart_padding, trimEnd_trimStart_padding.
Qed.

(** The key of a padded message is the trimmed lower-case form of the
    message. *)
Lemma key_of_padded (pre post m : string) :
  all_whitespace pre = true -> all_whitespace post = true ->
  toLowerCase (trim (pre +:+ m +:+ post)) = trim (toLowerCase m).
Proof. intros Hpre Hpost. by rewrite trim_padding, toLowerCase_trim. Qed.

(** The lookup sees a message up to case and up to white space around
    it: two messages with the same lower-case form get the same answer,
    whatever white space is put around the first. *)
Theorem command_lookup_ignores_case_and_padding (pre post m m' : string) :
  all_whitespace pre = true -> all_whitespace post = true ->
  toLowerCase m = toLowerCase m' ->
  getPreassignedCommand (pre +:+ m +:+ post) = getPreassignedCommand m'.
Proof.
  intros Hpre Hpost Hcase. unfold getPreassignedCommand.
  by rewrite key_of_padded, toLowerCase_trim, Hcase.
Qed.

Lemma command_lookup_ignores_case_and_padding_witness :
  getPreassignedCommand ("  " +:+ "Hello There" +:+ LF)
  = getPreassignedCommand "hello THERE".
Proof.
  apply (command_lookup_ignores_case_and_padding "  " LF); reflexivity.
Defined.

(** Each of the six commands is found in every casing and with any white
    space around it, and the answer is its response in the table. *)
Theorem every_command_is_found (key response pre cased post : string) :
  commands !! key = Some response ->
  all_whitespace pre = true -> all_whitespace post = true ->
  toLowerCase cased = key ->
  getPreassignedCommand (pre +:+ cased +:+ post) = Some (Text response).
Proof.
  intros Hkey Hpre Hpost <-.
  unfold getPreassignedCommand. rewrite key_of_padded by done.
  apply elem_of_list_to_map_2 in Hkey.
  repeat (apply elem_of_cons in Hkey as [[= -> ->]|Hkey]; [by vm_compute|]).
  by apply not_elem_of_nil in Hkey.
Qed.

Lemma every_command_is_found_witness :
  getPreassignedCommand (" " +:+ "Thank YOU" +:+ "  ")
  = Some (Text "You're welcome! Happy to help with your agricultural queries.").
Proof.
  apply (every_command_is_found "thank you"); reflexivity.
Defined.

(** A message that normalizes to [constructor] or [__proto__] is answered
    from what the table inherits: the chat handler returns that object,
    not a text, notes no error and sends no request. *)
Theorem inherited_key_is_answered (service : request -> response)
    (ms : list ChatTurn) (m : ChatTurn) (w : world) :
  last ms = Some m ->
  inherited (toLowerCase (trim (content m))) = true ->
  let (r, w') := Chat.askPerplexityChat service (Some ms) w in
  r = Returned (Inherited (toLowerCase (trim (content m)))) /\
  requests w' = requests w /\ console w' = console w.
Proof.
  intros Hlast Hkey.
  destruct ms as [|m0 ms]; [done|].
  rewrite last_default in Hlast. injection Hlast as <-.
  unfold Chat.askPerplexityChat, Chat.call_getPreassignedCommand, try_catch,
    Net.bind, getPreassignedCommand.
  unfold inherited in Hkey.
  apply orb_prop in Hkey as [Hk|Hk]; apply String.eqb_eq in Hk;
    rewrite Hk; by vm_compute.
Qed.

Lemma inherited_key_is_answered_witness :
  let (r, w') :=
    Chat.askPerplexityChat Examples.unreachable
      (Some (conversation Examples.history8 " Constructor "))
      Examples.empty_world in
  r = Returned (Inherited "constructor") /\
  requests w' = [] /\ console w' = [].
Proof.
  apply (inherited_key_is_answered Examples.unreachable
           (conversation Examples.history8 " Constructor ")
           (Turn "user" " Constructor ") Examples.empty_world);
    reflexivity.
Defined.

End CommandFacts.

(* ===================================================================== *)
(** ** More on the chat handler *)
(* ===================================================================== *)

Section ChatMore.
Import Net Commands.
Local Open Scope list_scope.

(** What the query returns, by the response of the service: the answer
    when it is truthy, the fallback string otherwise. *)
Lemma queryPerplexityAI_result (service : request -> response)
    (p : string) (n : Z) (w : world) :
  fst (Chat.queryPerplexityAI service p n w)
  = Returned
      match service (Request "https://api.perplexity.ai/search" p n) with
      | Resolved (JObj fields) =>
          match field "answer" fields with
          | Some a => if truthy a then a else JStr "AI failed to respond"
          | None => JStr "AI failed to respond"
          end
      | _ => JStr "AI failed to respond"
      end.
Proof.
  unfold Chat.queryPerplexityAI, Chat.axios_post, try_catch, Net.bind,
    Net.ret, console_error, post, answer_of. cbn.
  destruct (service _) as [e|data]; cbn; [done|].
  destruct data; cbn; try done.
  destruct (field "answer" fields) as [a|]; cbn; [|done].
  by destruct (truthy a).
Qed.

(** The reply of the chat handler to a message that misses the command
    table is the trimmed answer of the service when that answer is a
    non-empty string, and the fallback string in every other case: a
    rejected request, data without an answer, an empty, [null] or [false]
    answer, and an answer that is a number, an array or an object. *)
Theorem chat_reply (service : request -> response) (ms : list ChatTurn)
    (m : ChatTurn) (w : world) :
  last ms = Some m -> getPreassignedCommand (content m) = None ->
  fst (Chat.askPerplexityChat service (Some ms) w)
  = Returned
      (Text match string_answer
                    (service (axios_request (Chat.last5Messages ms))) with
            | Some s => trim s
            | None => "AI failed to respond"
            end).
Proof.
  intros Hlast Hmiss.
  destruct ms as [|m0 ms]; [done|].
  rewrite last_default in Hlast. injection Hlast as <-.
  rewrite (askPerplexityChat_miss _ _ _ _ Hmiss).
  match goal with
  | |- context [Chat.queryPerplexityAI ?s ?p ?n ?w0] =>
      pose proof (queryPerplexityAI_result s p n w0) as Hq;
      destruct (Chat.queryPerplexityAI s p n w0) as [r w']
  end.
  cbn in Hq. subst r. unfold string_answer, axios_request.
  destruct (service _) as [e|data]; [done|].
  destruct data; try done.
  destruct (field "answer" fields) as [[]|]; try done.
  - cbn. by destruct b.
  - cbn. destruct n as [| | |q]; try done. by destruct (Qeq_bool q 0).
  - cbn. by destruct (s =? "")%string.
Qed.

Lemma chat_reply_witness :
  fst (Chat.askPerplexityChat Examples.answering
         (Some (conversation Examples.history8 Examples.question))
         Examples.empty_world)
  = Returned (Text "Plant wheat after the rains.").
Proof.
  apply (chat_reply Examples.answering
           (conversation Examples.history8 Examples.question)
           (Turn "user" Examples.question) Examples.empty_world);
    reflexivity.
Defined.


(** The world after the query: one request more, and one line on the
    console when the request was rejected or its data was [null]. *)
Lemma queryPerplexityAI_world (service : request -> response)
    (p : string) (n : Z) (w : world) :
  let w' := snd (Chat.queryPerplexityAI service p n w) in
  requests w' = requests w ++ [Request "https://api.perplexity.ai/search" p n]
  /\ lookups w' = lookups w.
Proof.
  unfold Chat.queryPerplexityAI, Chat.axios_post, try_catch, Net.bind,
    Net.ret, console_error, post, answer_of. cbn.
  destruct (service _) as [e|data]; cbn; [done|].
  destruct data; cbn; try done.
  destruct (field "answer" fields) as [a|]; cbn; [|done].
  by destruct (truthy a).
Qed.

(** A call of the chat handler looks up at most one message and sends at
    most one request; the request goes to the search endpoint with a
    budget of 100 tokens, and it is sent only after the last message was
    looked up and missed the command table. *)
Theorem chat_sends_at_most_one_request (service : request -> response)
    (messages : option (list ChatTurn)) (w : world) :
  let w' := snd (Chat.askPerplexityChat service messages w) in
  (requests w' = requests w /\
   (lookups w' = lookups w \/
    exists m, lookups w' = lookups w ++ [m] /\
              getPreassignedCommand m <> None)) \/
  (exists m history,
     lookups w' = lookups w ++ [m] /\ getPreassignedCommand m = None /\
     requests w' = requests w ++ [axios_request history]).
Proof.
  destruct messages as [[|m0 ms]|]; [by left; split; [|left]| |by left; split; [|left]].
  destruct (getPreassignedCommand (content (List.last ms m0))) as [c|] eqn:Hc.
  - left. unfold Chat.askPerplexityChat, Chat.call_getPreassignedCommand,
      try_catch, Net.bind. rewrite Hc. cbn. split; [done|].
    right. eexists. split; [done|]. by rewrite Hc.
  - right. exists (content (List.last ms m0)), (Chat.last5Messages (m0 :: ms)).
    cbv zeta. rewrite (askPerplexityChat_miss _ _ _ _ Hc).
    match goal with
    | |- context [Chat.queryPerplexityAI ?s ?p ?n ?w0] =>
        pose proof (queryPerplexityAI_world s p n w0) as [Hreq Hlook];
        destruct (Chat.queryPerplexityAI s p n w0) as [[[]|] w']
    end; by cbn in *.
Qed.

(** The handler reads [messages] through its last five entries only: any
    older turns in front of them change neither the reply nor the request
    nor anything else in the world. *)
Theorem chat_ignores_older_turns (service : request -> response)
    (older recent : list ChatTurn) (w : world) :
  (5 <= length recent)%nat ->
  Chat.askPerplexityChat service (Some (older ++ recent)) w
  = Chat.askPerplexityChat service (Some recent) w.
Proof.
  intros Hlen.
  assert (Hslice : Chat.last5Messages (older ++ recent)
                   = Chat.last5Messages recent).
  { unfold Chat.last5Messages, slice_last. rewrite length_app.
    replace (length older + length recent - 5)%nat
      with (length older + (length recent - 5))%nat by lia.
    by rewrite drop_app_add. }
  assert (Hlast : last (older ++ recent) = last recent).
  { destruct recent as [|x recent]; [cbn in Hlen; lia|].
    by rewrite last_app_cons. }
  destruct recent as [|x recent]; [cbn in Hlen; lia|].
  destruct (older ++ x :: recent) as [|y l] eqn:Happ.
  { by destruct older. }
  rewrite !last_default in Hlast. injection Hlast as Hlast.
  unfold Chat.askPerplexityChat. by rewrite Hslice, Hlast.
Qed.

Lemma chat_ignores_older_turns_witness :
  Chat.askPerplexityChat Examples.answering
    (Some (take 4 Examples.history8
           ++ drop 4 (conversation Examples.history8 Examples.question)))
    Examples.empty_world
  = Chat.askPerplexityChat Examples.answering
      (Some (drop 4 (conversation Examples.history8 Examples.question)))
      Examples.empty_world.
Proof.
  apply (chat_ignores_older_turns Examples.answering
           (take 4 Examples.history8)). cbn. lia.
Defined.

End ChatMore.

(* ===================================================================== *)
(** ** The node-fetch revision of the chat handler *)
(* ===================================================================== *)

Section ChatFetchFacts.
Import Net Commands.
Local Open Scope list_scope.

(** The node-fetch revision has no guard for a missing or empty
    [messages]: reading the last message throws inside the [try], so the
    handler notes a TypeError on the console and returns the fallback
    string, where the axios revision returns "No messages provided".
    Neither looks up a command or sends a request. *)
Theorem fetch_revision_without_messages (service : request -> response)
    (w : world) :
  let failed :=
    (Returned (Text "AI failed to respond"),
     {| console := console w ++ [("❌ askPerplexityChat error:", TypeError)];
        requests := requests w; lookups := lookups w |}) in
  ChatFetch.askPerplexityChat service None w = failed /\
  ChatFetch.askPerplexityChat service (Some []) w = failed /\
  Chat.askPerplexityChat service None w
  = (Returned (Text "No messages provided"), w) /\
  Chat.askPerplexityChat service (Some []) w
  = (Returned (Text "No messages provided"), w).
Proof. repeat split. Qed.



End ChatFetchFacts.

(* ===================================================================== *)
(** ** More on the recommendation handler *)
(* ===================================================================== *)

Section RecommendMore.
Import Net.
Local Open Scope list_scope.

(** The handler sends one request and returns: the trimmed answer when
    the service answers with a string that is not only white space, the
    fallback string otherwise. *)
Lemma askPerplexityRecommend_run (service : request -> response)
    (show : number -> string) (params : Recommend.Params) (w : world) :
  exists req,
    url req = "https://api.perplexity.ai/v1/query" /\ max_tokens req = 100%Z /\
    requests (snd (Recommend.askPerplexityRecommend service show params w))
    = requests w ++ [req] /\
    lookups (snd (Recommend.askPerplexityRecommend service show params w))
    = lookups w /\
    fst (Recommend.askPerplexityRecommend service show params w)
    = Returned
        match string_answer (service req) with
        | Some s =>
            if (trim s =? "")%string
            then "AI failed to provide a recommendation." else trim s
        | None => "AI failed to provide a recommendation."
        end.
Proof.
  unfold Recommend.askPerplexityRecommend, Recommend.fetch_json,
    Recommend.optional_trim, try_catch, Net.bind, Net.ret, Net.throw,
    console_error, post, answer_of, call_trim, string_answer.
  match goal with
  | |- context [service ?r] => exists r; destruct (service r) as [e|data]
  end; [done|].
  destruct data; try done. cbn.
  destruct (field "answer" fields) as [[]|]; try done. cbn.
  destruct (s =? "")%string eqn:Hs.
  - apply String.eqb_eq in Hs. by subst s.
  - repeat split. by destruct (trim s).
Qed.

(** [askPerplexityRecommend] sends exactly one request, to the query
    endpoint with a budget of 100 tokens, and returns the trimmed answer
    of the service when that answer is a string with more than white
    space in it, and the fallback string in every other case; it never
    returns the empty string. *)
Theorem recommend_reply (service : request -> response)
    (show : number -> string) (params : Recommend.Params) (w : world) :
  let (r, w') := Recommend.askPerplexityRecommend service show params w in
  exists req text,
    requests w' = requests w ++ [req] /\
    url req = "https://api.perplexity.ai/v1/query" /\ max_tokens req = 100%Z /\
    r = Returned text /\ text <> "" /\
    text = match string_answer (service req) with
           | Some s =>
               if (trim s =? "")%string
               then "AI failed to provide a recommendation." else trim s
           | None => "AI failed to provide a recommendation."
           end.
Proof.
  destruct (askPerplexityRecommend_run service show params w)
    as (req & Hurl & Hmax & Hreq & _ & Hres).
  destruct (Recommend.askPerplexityRecommend service show params w) as [r w'].
  cbn in Hreq, Hres. exists req. eexists. repeat split; try done.
  destruct (string_answer (service req)) as [s|]; [|done].
  destruct (trim s =? "")%string eqn:Hs; [done|].
  by apply String.eqb_neq in Hs.
Qed.


(** The two fetch revisions of the recommendation handler differ in the
    request only (the endpoint and the wording of the prompt): each sends
    one request, and when the service gives both the same response they
    return the same text and leave the same console. *)
Theorem recommend_revisions_agree (service service' : request -> response)
    (show : number -> string) (params : Recommend.Params) (w : world) :
  let (r, w1) := Recommend.askPerplexityRecommend service show params w in
  let (r', w2) :=
    RecommendPlain.askPerplexityRecommend service' show params w in
  exists req req',
    requests w1 = requests w ++ [req] /\
    requests w2 = requests w ++ [req'] /\
    url req = "https://api.perplexity.ai/v1/query" /\
    url req' = "https://api.perplexity.ai/search" /\
    max_tokens req = max_tokens req' /\
    (service req = service' req' -> r = r' /\ console w1 = console w2).
Proof.
  unfold Recommend.askPerplexityRecommend,
    RecommendPlain.askPerplexityRecommend, Recommend.fetch_json,
    Recommend.optional_trim, try_catch, Net.bind, Net.ret, Net.throw,
    console_error, post, answer_of, call_trim.
  match goal with
  | |- context [service ?r] =>
      match goal with
      | |- context [service' ?r'] =>
          assert (Hurls : url r = "https://api.perplexity.ai/v1/query" /\
                          url r' = "https://api.perplexity.ai/search" /\
                          max_tokens r = max_tokens r') by done;
          remember r as req eqn:Hreq; remember r' as req' eqn:Hreq'
      end
  end.
  clear Hreq Hreq'. destruct Hurls as (Hu & Hu' & Hmax).
  destruct (service req) as [e|data] eqn:Hs,
    (service' req') as [e'|data'] eqn:Hs'.
  all: try destruct data as [| | | | |fields].
  all: try destruct data' as [| | | | |fields'].
  all: cbn.
  all: try destruct (field "answer" fields) as [[]|] eqn:Hf.
  all: try destruct (field "answer" fields') as [[]|] eqn:Hf'.
  all: exists req, req'; cbn; repeat split; try done.
  all: match goal with
       | H : ?a = ?b, Ha : ?a = _, Hb : ?b = _ |- _ =>
           rewrite Ha, Hb in H; by simplify_eq
       end.
Qed.

End RecommendMore.

(* ===================================================================== *)
(** ** The [/recommend] route *)
(* ===================================================================== *)

Section RecommendRoute.
Import Net Routes.
Local Open Scope list_scope.


End RecommendRoute.

(* ===================================================================== *)
(** ** The [/chat] route *)
(* ===================================================================== *)

Section ChatRouteFacts.
Import Net Routes.
Local Open Scope list_scope.

Context (service : request -> response)
        (active_session : list query -> value -> exn + list Z)
        (new_session : list query -> value -> exn + Z)
        (chat_rows : list query -> value -> exn + list Server.chat_row)
        (store_chat : list query -> Z -> value -> reply -> string -> exn + unit).

Let chat :=
  ChatRoute.chat service active_session new_session chat_rows store_chat.

(** The handler, run from a state of the route, returns. *)
Lemma lift_askPerplexityChat (messages : option (list ChatTurn)) (s : state) :
  exists aiResponse w',
    Chat.askPerplexityChat service messages (world_of s)
    = (Returned aiResponse, w') /\
    lift (Chat.askPerplexityChat service messages) s
    = (Returned aiResponse, {| world_of := w'; queries := queries s |}).
Proof.
  unfold lift.
  assert (H : exists r, fst (Chat.askPerplexityChat service messages (world_of s))
                        = Returned r).
  { destruct messages as [[|m ms]|]; try (by eexists).
    destruct (Commands.getPreassignedCommand (content (List.last ms m)))
      as [c|] eqn:Hc.
    - unfold Chat.askPerplexityChat, Chat.call_getPreassignedCommand,
        Net.try_catch, Net.bind. rewrite Hc. by eexists.
    - rewrite (askPerplexityChat_miss _ _ _ _ Hc).
      destruct (Chat.queryPerplexityAI _ _ _ _) as [[[]|] w']; by eexists. }
  destruct H as [r Hr].
  destruct (Chat.askPerplexityChat service messages (world_of s)) as [r0 w'].
  cbn in Hr. subst r0. by exists r, w'.
Qed.

(** The steps of the route. *)
Lemma db_query_ok {A B} (q : query) (answer : list query -> exn + A)
    (k : A -> R B) (s : state) (a : A) :
  answer (queries s) = inr a ->
  bind (db_query q answer) k s
  = k a {| world_of := world_of s; queries := queries s ++ [q] |}.
Proof. intros H. unfold bind, db_query. by rewrite H. Qed.

Lemma db_query_failed {A B} (q : query) (answer : list query -> exn + A)
    (k : A -> R B) (s : state) (e : exn) :
  answer (queries s) = inl e ->
  bind (db_query q answer) k s
  = (Thrown e, {| world_of := world_of s; queries := queries s ++ [q] |}).
Proof. intros H. unfold bind, db_query. by rewrite H. Qed.

Lemma ret_bind {A B} (a : A) (k : A -> R B) (s : state) :
  bind (ret a) k s = k a s.
Proof. reflexivity. Qed.

Lemma lift_returned {A B} (m : M A) (k : A -> R B) (s : state) (a : A)
    (w' : world) :
  m (world_of s) = (Returned a, w') ->
  bind (lift m) k s = k a {| world_of := w'; queries := queries s |}.
Proof. intros H. unfold bind, lift. by rewrite H. Qed.

(** Runs the next statement of the route when the database answers it. *)
Ltac db_step :=
  match goal with
  | |- context [bind (db_query ?q ?ans) ?k ?st] =>
      let a := fresh "a" in
      let Ha := fresh "Ha" in
      assert (exists a, ans (queries st) = inr a) as [a Ha]
        by (cbn beta; eauto);
      rewrite (db_query_ok q ans k st a Ha); cbn [queries world_of]
  end.

(** Runs the chat handler inside the route. *)
Ltac handler_step reply w' Hrun :=
  match goal with
  | |- context [bind (lift (Chat.askPerplexityChat service ?ms)) ?k ?st] =>
      destruct (lift_askPerplexityChat ms st) as (reply & w' & Hrun & _);
      rewrite (lift_returned _ k st reply w' Hrun); cbn [queries world_of]
  end.

(** Without a message or without a truthy [userId] the route answers 400
    and touches nothing: no statement goes to the database, no request to
    the completion service. *)
Theorem chat_route_validation (message : string) (userId : value) (s : state) :
  message = "" \/ ToBoolean userId = false ->
  chat message userId s
  = (Returned (Response 400 (ErrorBody "Message and userId required")), s).
Proof.
  intros H. unfold chat, ChatRoute.chat, try_catch.
  assert (Hc : (message =? "")%string || negb (ToBoolean userId) = true).
  { destruct H as [->| ->]; [done|]. apply orb_true_r. }
  by rewrite Hc.
Qed.





(** The route is not atomic: when the database stores the message of the
    user and then fails to store the reply, the route answers 500 with the
    fallback string although the chat handler has run and returned its
    reply; the insertion of the message of the user has been sent and
    stays. *)
Theorem chat_route_reply_not_stored (message : string) (userId : value)
    (s : state) (e : exn) :
  message <> "" -> ToBoolean userId = true ->
  (forall sent u, exists ids, active_session sent u = inr ids) ->
  (forall sent u, exists id, new_session sent u = inr id) ->
  (forall sent u, exists rows, chat_rows sent u = inr rows) ->
  (forall sent id u m, store_chat sent id u m "user" = inr tt) ->
  (forall sent id u m, store_chat sent id u m "ai" = inl e) ->
  let (r, s') := chat message userId s in
  r = Returned (Response 500 (ChatBody (Text "AI failed to respond"))) /\
  exists sessionId rows aiResponse w',
    Chat.askPerplexityChat service
      (Some (Server.messagesForAI rows message)) (world_of s)
    = (Returned aiResponse, w') /\
    requests (world_of s') = requests w' /\
    console (world_of s') = console w' ++ [("âŒ /chat error:", e)] /\
    InsertChat sessionId userId (Text message) "user" ∈ queries s' /\
    last (queries s') = Some (InsertChat sessionId userId aiResponse "ai").
Proof.
  intros Hmsg Huser Hactive Hnew Hrows Hstore Hfail.
  unfold chat, ChatRoute.chat, try_catch.
  assert (Hc : (message =? "")%string || negb (ToBoolean userId) = false).
  { rewrite Huser. by apply String.eqb_neq in Hmsg as ->. }
  rewrite Hc. db_step.
  destruct a as [|session_id ids].
  - do 3 db_step. handler_step aiResponse w' Hrun.
    rewrite (db_query_failed _ _ _ _ e) by apply Hfail.
    cbn. split; [done|]. exists a, a0, aiResponse, w'.
    repeat split; try done; [|by rewrite last_snoc].
    rewrite !elem_of_app, !list_elem_of_singleton. by left; right.
  - rewrite ret_bind. do 2 db_step. handler_step aiResponse w' Hrun.
    rewrite (db_query_failed _ _ _ _ e) by apply Hfail.
    cbn. split; [done|]. exists session_id, a, aiResponse, w'.
    repeat split; try done; [|by rewrite last_snoc].
    rewrite !elem_of_app, !list_elem_of_singleton. by left; right.
Qed.

End ChatRouteFacts.

Lemma chat_route_validation_witness :
  ChatRoute.chat Examples.answering ExampleDatabase.active_session
    ExampleDatabase.new_session ExampleDatabase.chat_rows
    ExampleDatabase.store_chat "" (num 7) ExampleDatabase.start
  = (Net.Returned
       (Routes.Response 400 (Routes.ErrorBody "Message and userId required")),
     ExampleDatabase.start) /\
  ChatRoute.chat Examples.answering ExampleDatabase.active_session
    ExampleDatabase.new_session ExampleDatabase.chat_rows
    ExampleDatabase.store_chat "hello" (num 0) ExampleDatabase.start
  = (Net.Returned
       (Routes.Response 400 (Routes.ErrorBody "Message and userId required")),
     ExampleDatabase.start).
Proof.
  split; apply chat_route_validation; [by left | by right].
Defined.


Lemma chat_route_reply_not_stored_witness :
  let (r, s') :=
    ChatRoute.chat Examples.answering ExampleDatabase.active_session
      ExampleDatabase.new_session ExampleDatabase.chat_rows
      ExampleDatabase.store_chat_once Examples.question (num 7)
      ExampleDatabase.start in
  r = Net.Returned
        (Routes.Response 500 (Routes.ChatBody (Text "AI failed to respond"))) /\
  exists sessionId rows aiResponse w',
    Chat.askPerplexityChat Examples.answering
      (Some (Server.messagesForAI rows Examples.question))
      Examples.empty_world
    = (Net.Returned aiResponse, w') /\
    Net.requests (Routes.world_of s') = Net.requests w' /\
    Net.console (Routes.world_of s')
    = (Net.console w' ++ [("âŒ /chat error:", Net.NetworkError)])%list /\
    Routes.InsertChat sessionId (num 7) (Text Examples.question) "user"
      ∈ Routes.queries s' /\
    last (Routes.queries s')
    = Some (Routes.InsertChat sessionId (num 7) aiResponse "ai").
Proof.
  apply (chat_route_reply_not_stored Examples.answering
           ExampleDatabase.active_session ExampleDatabase.new_session
           ExampleDatabase.chat_rows ExampleDatabase.store_chat_once
           Examples.question (num 7) ExampleDatabase.start Net.NetworkError);
    try done; intros; by eexists.
Defined.

(* ===================================================================== *)
(** ** The stored conversation in the prompt *)
(* ===================================================================== *)

Section RoutePrompt.
Import Net Commands.
Local Open Scope list_scope.



End RoutePrompt.

